(** * bookstore: the HTTP handlers of [main.go] over a MongoDB collection

    The program is a thin request layer: four handlers decode form
    fields, call the MongoDB driver on the collection [bookstore.books]
    and answer with a status code and a body.  The handlers are embedded
    as state-passing functions over a [World] that holds the collection,
    the driver's ObjectID generator and a log of the driver calls made.

    The library functions the handlers call ([strconv.ParseFloat],
    [primitive.ObjectIDFromHex], [primitive.NewObjectID], the driver's
    [InsertOne]/[DeleteOne]/[UpdateOne]/[Find]) are modelled after their
    Go sources and documentation, each in a module named after its
    package. *)

From Stdlib Require Import ZArith Lia Bool Ascii String.
From Stdlib Require Import Floats.SpecFloat.
From stdpp Require Import base option list strings gmap.

Local Open Scope string_scope.
Local Open Scope Z_scope.
Local Open Scope list_scope.

(** ** Go values *)

(** A Go call returning [(T, error)]: either the value or the error. *)
Inductive result (A E : Type) : Type :=
  | Ok (a : A)
  | Err (e : E).
Arguments Ok {A E} a.
Arguments Err {A E} e.

Definition is_ok {A E} (r : result A E) : bool :=
  match r with Ok _ => true | Err _ => false end.

(** A Go [string] is a sequence of bytes; [s[i]] is a number below 256. *)
Definition bytes (s : string) : list Z :=
  (fun c => Z.of_N (N_of_ascii c)) <$> list_ascii_of_string s.

Definition ord (c : string) : Z :=
  match c with
  | String a _ => Z.of_N (N_of_ascii a)
  | EmptyString => 0
  end.

(** A [float64] is an IEEE 754 binary64 value. *)
Definition float64 : Type := spec_float.
Definition prec64 : Z := 53.
Definition emax64 : Z := 1024.

(** ** Package [strconv]: [ParseFloat(s, 64)] *)
Module strconv.

Inductive NumError : Type := ErrSyntax | ErrRange.

(** [lower(c)]: [c | ('x' - 'X')]. *)
Definition lower (c : Z) : Z := Z.lor c 32.

Definition isDigit (c : Z) : bool := (ord "0" <=? c) && (c <=? ord "9").
Definition isHexLetter (c : Z) : bool :=
  (ord "a" <=? lower c) && (lower c <=? ord "f").

(** [commonPrefixLenIgnoreCase(s, prefix)]: upper-case letters of [s]
    are folded, [prefix] is in lower case. *)
Fixpoint commonPrefixLenIgnoreCase (s prefix : list Z) : Z :=
  match s, prefix with
  | c :: s', p :: prefix' =>
      let c' := if (ord "A" <=? c) && (c <=? ord "Z") then c + 32 else c in
      if c' =? p then 1 + commonPrefixLenIgnoreCase s' prefix' else 0
  | _, _ => 0
  end.

(** [special(s)]: the (possibly signed) infinities and NaN.  Returns the
    value and the number of bytes consumed.  A sign falls through to
    the infinity case only. *)
Definition special_inf (sign : bool) (nsign : Z) (s : list Z)
  : option (float64 * Z) :=
  let n := commonPrefixLenIgnoreCase s (bytes "infinity") in
  let n := if (3 <? n) && (n <? 8) then 3 else n in
  if (n =? 3) || (n =? 8) then Some (S754_infinity sign, nsign + n)
  else None.

Definition special (s : list Z) : option (float64 * Z) :=
  match s with
  | [] => None
  | c :: s' =>
      if (c =? ord "+") || (c =? ord "-") then
        special_inf (c =? ord "-") 1 s'
      else if (c =? ord "i") || (c =? ord "I") then
        special_inf false 0 s
      else if (c =? ord "n") || (c =? ord "N") then
        if commonPrefixLenIgnoreCase s (bytes "nan") =? 3
        then Some (S754_nan, 3) else None
      else None
  end.

(** State of the mantissa loop of [readFloat].  The mantissa is kept
    exact: Go keeps the first 19 (16 in base 16) digits with a [trunc]
    flag and, when digits were dropped, converts from the full digit
    string; the float returned is the correctly rounded exact value in
    both cases, so [ndMant] coincides with [nd] here. *)
Record mant : Type := Mant {
  sawdot : bool;
  sawdigits : bool;
  nd : Z;
  dp : Z;
  mantissa : Z;
  underscores : bool;
}.

(** The [loop:] of [readFloat]: returns the state and the unread rest. *)
Fixpoint readMantissa (base : Z) (m : mant) (s : list Z) : mant * list Z :=
  match s with
  | [] => (m, [])
  | c :: s' =>
      if c =? ord "_" then
        readMantissa base
          (Mant (sawdot m) (sawdigits m) (nd m) (dp m) (mantissa m) true) s'
      else if c =? ord "." then
        if sawdot m then (m, s)
        else readMantissa base
          (Mant true (sawdigits m) (nd m) (nd m) (mantissa m) (underscores m)) s'
      else if isDigit c then
        if (c =? ord "0") && (nd m =? 0) then
          readMantissa base
            (Mant (sawdot m) true (nd m) (dp m - 1) (mantissa m) (underscores m)) s'
        else
          readMantissa base
            (Mant (sawdot m) true (nd m + 1) (dp m)
                  (mantissa m * base + (c - ord "0")) (underscores m)) s'
      else if (base =? 16) && isHexLetter c then
        readMantissa base
          (Mant (sawdot m) true (nd m + 1) (dp m)
                (mantissa m * 16 + (lower c - ord "a" + 10)) (underscores m)) s'
      else (m, s)
  end.

(** The digit loop of the exponent: [e] stops growing from 10000 on. *)
Fixpoint readExpDigits (e : Z) (us : bool) (s : list Z) : Z * bool * list Z :=
  match s with
  | c :: s' =>
      if c =? ord "_" then readExpDigits e true s'
      else if isDigit c then
        readExpDigits (if e <? 10000 then e * 10 + (c - ord "0") else e) us s'
      else (e, us, s)
  | [] => (e, us, [])
  end.

(** [underscoreOK(s)]: underscores only between digits, or between a
    base prefix and a digit.  [saw] is the class of the last byte. *)
Inductive saw_t : Type := SawDigit | SawUnderscore | SawStart | SawOther.

Fixpoint underscoreLoop (hex : bool) (saw : saw_t) (s : list Z) : bool :=
  match s with
  | [] => match saw with SawUnderscore => false | _ => true end
  | c :: s' =>
      if isDigit c || (hex && isHexLetter c) then underscoreLoop hex SawDigit s'
      else if c =? ord "_" then
        match saw with
        | SawDigit => underscoreLoop hex SawUnderscore s'
        | _ => false
        end
      else
        match saw with
        | SawUnderscore => false
        | _ => underscoreLoop hex SawOther s'
        end
  end.

Definition underscoreOK (s : list Z) : bool :=
  let s :=
    match s with
    | c :: s' => if (c =? ord "-") || (c =? ord "+") then s' else s
    | [] => s
    end in
  match s with
  | c0 :: c1 :: s' =>
      if (c0 =? ord "0") &&
         ((lower c1 =? ord "b") || (lower c1 =? ord "o") || (lower c1 =? ord "x"))
      then underscoreLoop (lower c1 =? ord "x") SawDigit s'
      else underscoreLoop false SawStart s
  | _ => underscoreLoop false SawStart s
  end.

(** What [readFloat] returns when [ok]: sign, exact mantissa, exponent
    of the base ([exp] counts bits when [hex]), and the bytes consumed. *)
Record parsed : Type := Parsed {
  p_mantissa : Z;
  p_exp : Z;
  p_neg : bool;
  p_hex : bool;
  p_n : Z;
}.

Definition readFloat (s : list Z) : option parsed :=
  match s with
  | [] => None
  | c :: s' =>
      (* optional sign *)
      let neg := c =? ord "-" in
      let s1 := if (c =? ord "+") || (c =? ord "-") then s' else s in
      (* base prefix: needs a byte after it *)
      let '(hex, s2) :=
        match s1 with
        | c0 :: c1 :: (_ :: _) as s'' =>
            if (c0 =? ord "0") && (lower c1 =? ord "x") then (true, s'')
            else (false, s1)
        | _ => (false, s1)
        end in
      let base := if hex then 16 else 10 in
      let '(m, s3) := readMantissa base (Mant false false 0 0 0 false) s2 in
      if negb (sawdigits m) then None
      else
        let dp0 := if sawdot m then dp m else nd m in
        let dp1 := if hex then dp0 * 4 else dp0 in
        let ndMant := if hex then nd m * 4 else nd m in
        let finish (dp2 : Z) (us : bool) (rest : list Z) : option parsed :=
          let n := Z.of_nat (length s) - Z.of_nat (length rest) in
          if us && negb (underscoreOK (take (Z.to_nat n) s)) then None
          else Some (Parsed (mantissa m)
                            (if mantissa m =? 0 then 0 else dp2 - ndMant)
                            neg hex n) in
        match s3 with
        | c :: s4 =>
            if lower c =? (if hex then ord "p" else ord "e") then
              match s4 with
              | [] => None
              | d :: s5 =>
                  let esign := if d =? ord "-" then -1 else 1 in
                  let s6 := if (d =? ord "+") || (d =? ord "-") then s5 else s4 in
                  match s6 with
                  | d0 :: _ =>
                      if isDigit d0 then
                        let '(e, us, rest) := readExpDigits 0 (underscores m) s6 in
                        finish (dp1 + e * esign) us rest
                      else None
                  | [] => None
                  end
              end
            else if hex then None
            else finish dp1 (underscores m) s3
        | [] => if hex then None else finish dp1 (underscores m) s3
        end
  end.

(** The binary64 value nearest to [num / den] (ties to even), with the
    sign [neg]; an infinity when the quotient is out of range. *)
Definition nearest64 (neg : bool) (num den : Z) : float64 :=
  if num =? 0 then S754_zero neg
  else
    let s := Z.max 0 (64 + Z.log2 den - Z.log2 num) in
    let n := num * 2 ^ s in
    let q := n / den in
    let r := n mod den in
    let loc := if r =? 0 then loc_Exact else loc_Inexact (2 * r ?= den) in
    binary_round_aux prec64 emax64 neg q (- s) loc.

(** The value of a parsed literal: [mantissa * 10^exp], or
    [mantissa * 2^exp] for a hexadecimal one. *)
Definition parsedValue (p : parsed) : float64 :=
  let b := if p_hex p then 2 else 10 in
  if 0 <=? p_exp p
  then nearest64 (p_neg p) (p_mantissa p * b ^ p_exp p) 1
  else nearest64 (p_neg p) (p_mantissa p) (b ^ (- p_exp p)).

(** [parseFloatPrefix(s, 64)]: value, bytes consumed, error. *)
Definition parseFloatPrefix (s : list Z) : float64 * Z * option NumError :=
  match special s with
  | Some (val, n) => (val, n, None)
  | None =>
      match readFloat s with
      | None => (S754_zero false, 0, Some ErrSyntax)
      | Some p =>
          let f := parsedValue p in
          match f with
          | S754_infinity _ => (f, p_n p, Some ErrRange)
          | _ => (f, p_n p, None)
          end
      end
  end.

Definition ParseFloat (s : string) : result float64 NumError :=
  let '(f, n, err) := parseFloatPrefix (bytes s) in
  if negb (n =? Z.of_nat (length (bytes s))) &&
     match err with Some ErrSyntax => false | _ => true end
  then Err ErrSyntax
  else match err with
       | None => Ok f
       | Some e => Err e
       end.

End strconv.

(** ** Package [encoding/hex] and [bson/primitive]: ObjectIDs *)
Module primitive.

(** [type ObjectID [12]byte]. *)
Definition ObjectID : Type := list Z.

Definition NilObjectID : ObjectID := replicate 12 0.

Definition IsZero (id : ObjectID) : bool := bool_decide (id = NilObjectID).

(** [hex.fromHexChar]. *)
Definition fromHexChar (c : Z) : option Z :=
  if (ord "0" <=? c) && (c <=? ord "9") then Some (c - ord "0")
  else if (ord "a" <=? c) && (c <=? ord "f") then Some (c - ord "a" + 10)
  else if (ord "A" <=? c) && (c <=? ord "F") then Some (c - ord "A" + 10)
  else None.

(** [hex.Decode] on a source of even length: one byte per pair. *)
Fixpoint hexDecode (src : list Z) : option (list Z) :=
  match src with
  | [] => Some []
  | p :: q :: src' =>
      match fromHexChar p, fromHexChar q, hexDecode src' with
      | Some a, Some b, Some rest => Some (Z.lor (Z.shiftl a 4) b :: rest)
      | _, _, _ => None
      end
  | [_] => None
  end.

Inductive HexError : Type := ErrInvalidHex | InvalidByteError.

Definition ObjectIDFromHex (s : string) : result ObjectID HexError :=
  if negb (Z.of_nat (length (bytes s)) =? 24) then Err ErrInvalidHex
  else match hexDecode (bytes s) with
       | Some oid => Ok oid
       | None => Err InvalidByteError
       end.

(** The process-wide generator state behind [NewObjectID]: the clock,
    the five random bytes drawn at start-up and the atomic counter. *)
Record Generator : Type := {
  unixTime : Z;
  processUnique : list Z;
  objectIDCounter : Z;
}.

Definition bigEndianUint32 (v : Z) : list Z :=
  let v := v mod 2 ^ 32 in
  [Z.shiftr v 24 mod 256; Z.shiftr v 16 mod 256; Z.shiftr v 8 mod 256; v mod 256].

Definition putUint24 (v : Z) : list Z :=
  [Z.shiftr v 16 mod 256; Z.shiftr v 8 mod 256; v mod 256].

(** [NewObjectID()]: timestamp, process bytes, incremented counter. *)
Definition NewObjectID (g : Generator) : ObjectID * Generator :=
  let c := (objectIDCounter g + 1) mod 2 ^ 32 in
  (bigEndianUint32 (unixTime g) ++ take 5 (processUnique g) ++ putUint24 c,
   {| unixTime := unixTime g;
      processUnique := processUnique g;
      objectIDCounter := c |}).

End primitive.

Abbreviation ObjectID := primitive.ObjectID.

(** ** The data model of [main.go] *)

(** [type Book struct]: the document stored under [_id], [name],
    [author], [cost]. *)
Record Book : Type := {
  ID : ObjectID;
  Name : string;
  Author : string;
  Cost : float64;
}.

(** ** Package [mongo]: the driver calls on [bookstore.books] *)

Inductive StoreCall : Type :=
  | CallInsertOne (document : Book)
  | CallDeleteOne (filterID : ObjectID)
  | CallUpdateOne (filterID : ObjectID) (name author : string) (cost : float64)
  | CallFind.

(** What can go wrong while the cursor of a successful [Find] is read:
    [cursor.Decode] returns an error on the document at position [n], or
    [cursor.Next] stops after [n] documents and [cursor.Err] is not
    nil. *)
Inductive CursorFault : Type :=
  | DecodeFault (n : nat)
  | NextFault (n : nat).

(** The process and its environment while one request is served: the
    documents of the collection in natural order, whether the server
    answers the driver call of this request within [mongoTimeout] (a
    handler makes at most one), the ObjectID generator, the driver calls
    made so far, and the fault, if any, that reading a cursor meets.

    The handlers change the collection, the generator and the log.
    Reachability and cursor faults belong to the environment: every
    driver call has its own context and its own error, so from one
    request to the next they may differ.  A statement about several
    requests therefore assumes of each driver call that it does not
    fail, or takes the world of a later request as any world that holds
    the collection the earlier request left. *)
Record World : Type := {
  books : list Book;
  reachable : bool;
  generator : primitive.Generator;
  calls : list StoreCall;
  cursorFault : option CursorFault;
}.

Definition State (A : Type) : Type := World -> A * World.

#[global] Instance State_ret : MRet State := fun A a w => (a, w).
#[global] Instance State_bind : MBind State :=
  fun A B f m w => let '(a, w') := m w in f a w'.

Definition get {A} (f : World -> A) : State A := fun w => (f w, w).

Definition setBooks (l : list Book) : State unit := fun w =>
  (tt, {| books := l; reachable := reachable w;
          generator := generator w; calls := calls w;
          cursorFault := cursorFault w |}).

Definition logCall (c : StoreCall) : State unit := fun w =>
  (tt, {| books := books w; reachable := reachable w;
          generator := generator w; calls := calls w ++ [c];
          cursorFault := cursorFault w |}).

Definition NewObjectID : State ObjectID := fun w =>
  let '(id, g) := primitive.NewObjectID (generator w) in
  (id, {| books := books w; reachable := reachable w;
          generator := g; calls := calls w;
          cursorFault := cursorFault w |}).

Module mongo.

Inductive Error : Type :=
  | ServerSelectionError      (* no answer before the context deadline *)
  | DuplicateKeyError         (* E11000 on the unique [_id] index *)
  | DecodeError               (* a document does not decode into the struct *)
  | CursorError.              (* the cursor failed while it was read *)

Definition ids (l : list Book) : list ObjectID := ID <$> l.

(** [InsertOne(ctx, book)].  The field tag [_id,omitempty] drops a zero
    ID when the struct is marshalled, and the driver then adds an
    [_id] of its own.  The server appends the document unless its
    [_id] is already in the collection. *)
Definition InsertOne (document : Book) : State (result ObjectID Error) :=
  _ ← logCall (CallInsertOne document);
  id ← (if primitive.IsZero (ID document) then NewObjectID
        else mret (ID document));
  up ← get reachable;
  if negb up then mret (Err ServerSelectionError)
  else
    l ← get books;
    if bool_decide (id ∈ ids l) then mret (Err DuplicateKeyError)
    else
      _ ← setBooks (l ++ [{| ID := id; Name := Name document;
                             Author := Author document;
                             Cost := Cost document |}]);
      mret (Ok id).

(** The first document whose [_id] is [oid] is removed. *)
Fixpoint deleteFirst (oid : ObjectID) (l : list Book) : list Book * Z :=
  match l with
  | [] => ([], 0)
  | b :: l' =>
      if bool_decide (ID b = oid) then (l', 1)
      else let '(r, n) := deleteFirst oid l' in (b :: r, n)
  end.

Record DeleteResult : Type := { DeletedCount : Z }.

(** [DeleteOne(ctx, bson.M{"_id": oid})]. *)
Definition DeleteOne (oid : ObjectID) : State (result DeleteResult Error) :=
  _ ← logCall (CallDeleteOne oid);
  up ← get reachable;
  if negb up then mret (Err ServerSelectionError)
  else
    l ← get books;
    let '(l', n) := deleteFirst oid l in
    _ ← setBooks l';
    mret (Ok {| DeletedCount := n |}).

(** [$set] of the three fields on the first document whose [_id] is
    [oid]. *)
Fixpoint setFirst (oid : ObjectID) (name author : string) (cost : float64)
    (l : list Book) : list Book * Z :=
  match l with
  | [] => ([], 0)
  | b :: l' =>
      if bool_decide (ID b = oid)
      then ({| ID := ID b; Name := name; Author := author; Cost := cost |} :: l', 1)
      else let '(r, n) := setFirst oid name author cost l' in (b :: r, n)
  end.

(** Of the [UpdateResult] only [MatchedCount] is modelled. *)
Record UpdateResult : Type := { MatchedCount : Z }.

(** [UpdateOne(ctx, bson.M{"_id": oid}, bson.M{"$set": ...})]. *)
Definition UpdateOne (oid : ObjectID) (name author : string) (cost : float64)
  : State (result UpdateResult Error) :=
  _ ← logCall (CallUpdateOne oid name author cost);
  up ← get reachable;
  if negb up then mret (Err ServerSelectionError)
  else
    l ← get books;
    let '(l', n) := setFirst oid name author cost l in
    _ ← setBooks l';
    mret (Ok {| MatchedCount := n |}).

(** A [*mongo.Cursor] over documents to decode into [Book]: for each
    document [Next] will stand on, what [Decode] gives; and what [Err]
    reports once [Next] has returned false. *)
Record Cursor : Type := {
  remaining : list (result Book Error);
  cursorErr : option Error;
}.

(** The cursor a successful [Find] hands out over the documents [l],
    under the fault of the environment. *)
Definition openCursor (fault : option CursorFault) (l : list Book) : Cursor :=
  match fault with
  | None => {| remaining := Ok <$> l; cursorErr := None |}
  | Some (DecodeFault n) =>
      {| remaining :=
           (Ok <$> take n l) ++
           match drop n l with
           | [] => []
           | _ :: l' => Err DecodeError :: (Ok <$> l')
           end;
         cursorErr := None |}
  | Some (NextFault n) =>
      {| remaining := Ok <$> take n l; cursorErr := Some CursorError |}
  end.

(** [Find(ctx, bson.M{})]: a cursor over all documents. *)
Definition Find : State (result Cursor Error) :=
  _ ← logCall CallFind;
  up ← get reachable;
  if negb up then mret (Err ServerSelectionError)
  else
    l ← get books;
    fault ← get cursorFault;
    mret (Ok (openCursor fault l)).

End mongo.

(** ** Package [net/http] *)

Record Request : Type := {
  Method : string;
  Form : gmap string (list string);
}.

(** [r.FormValue(key)]: the first value of [key], or the empty string. *)
Definition FormValue (r : Request) (key : string) : string :=
  match Form r !! key with
  | Some (v :: _) => v
  | _ => ""
  end.

Record Response : Type := {
  StatusCode : Z;
  Body : string;
}.

Definition StatusOK : Z := 200.
Definition StatusBadRequest : Z := 400.
Definition StatusMethodNotAllowed : Z := 405.
Definition StatusInternalServerError : Z := 500.

Definition LF : string := String (ascii_of_nat 10) EmptyString.

(** [http.Error(w, error, code)] writes the code and the message followed
    by a newline. *)
Definition httpError (error : string) (code : Z) : Response :=
  {| StatusCode := code; Body := error +:+ LF |}.

(** [fmt.Fprintf(w, format)] with a format free of verbs: the first write
    sends status 200. *)
Definition Fprintf (format : string) : Response :=
  {| StatusCode := StatusOK; Body := format |}.

Definition MethodGet : string := "GET".
Definition MethodPost : string := "POST".

(** A parsed [html/template]: what [Execute] writes for the listing. *)
Definition Template : Type := list Book -> string.

(** ** The handlers of [main.go] *)

(** The loop of [getBooks]: while [cursor.Next], decode the document
    and append it, returning the error of a failed [Decode]; after the
    loop, return the error of [cursor.Err], if any, else the slice. *)
Fixpoint drain (docs : list (result Book mongo.Error))
    (cursorErr : option mongo.Error) (books : list Book)
  : result (list Book) mongo.Error :=
  match docs with
  | doc :: docs' =>
      match doc with
      | Err err => Err err
      | Ok book => drain docs' cursorErr (books ++ [book])
      end
  | [] =>
      match cursorErr with
      | Some err => Err err
      | None => Ok books
      end
  end.

Definition getBooks : State (result (list Book) mongo.Error) :=
  res ← mongo.Find;
  match res with
  | Err err => mret (Err err)
  | Ok cursor =>
      mret (drain (mongo.remaining cursor) (mongo.cursorErr cursor) [])
  end.

Definition handleIndex (tpl : Template) (r : Request) : State Response :=
  if decide (Method r ≠ MethodGet)
  then mret (httpError "Method not allowed" StatusMethodNotAllowed)
  else
    res ← getBooks;
    match res with
    | Err _ => mret (httpError "Failed to get books" StatusInternalServerError)
    | Ok books => mret {| StatusCode := StatusOK; Body := tpl books |}
    end.

Definition addedFragment : string :=
  "<script>alert('Book added successfully!'); window.location.href = '/';</script>".
Definition notFoundFragment : string :=
  "<script>alert('Book not found!'); window.location.href = '/';</script>".
Definition deletedFragment : string :=
  "<script>alert('Book deleted successfully!'); window.location.href = '/';</script>".
Definition modifiedFragment : string :=
  "<script>alert('Book modified successfully!'); window.location.href = '/';</script>".

Definition handleSubmit (r : Request) : State Response :=
  if decide (Method r ≠ MethodPost)
  then mret (httpError "Method not allowed" StatusMethodNotAllowed)
  else
    let name := FormValue r "name" in
    let author := FormValue r "author" in
    let cost := FormValue r "cost" in
    match strconv.ParseFloat cost with
    | Err _ => mret (httpError "Invalid cost" StatusBadRequest)
    | Ok bookCost =>
        id ← NewObjectID;
        let book := {| ID := id; Name := name; Author := author; Cost := bookCost |} in
        res ← mongo.InsertOne book;
        match res with
        | Err _ => mret (httpError "Failed to insert book" StatusInternalServerError)
        | Ok _ => mret (Fprintf addedFragment)
        end
    end.

Definition handleDelete (r : Request) : State Response :=
  if decide (Method r ≠ MethodPost)
  then mret (httpError "Method not allowed" StatusMethodNotAllowed)
  else
    let bookID := FormValue r "id" in
    if decide (bookID = "")
    then mret (httpError "Invalid book ID" StatusBadRequest)
    else
      match primitive.ObjectIDFromHex bookID with
      | Err _ => mret (httpError "Invalid book ID" StatusBadRequest)
      | Ok objID =>
          res ← mongo.DeleteOne objID;
          match res with
          | Err _ => mret (httpError "Failed to delete book" StatusInternalServerError)
          | Ok result =>
              if mongo.DeletedCount result =? 0
              then mret (Fprintf notFoundFragment)
              else mret (Fprintf deletedFragment)
          end
      end.

Definition handleModify (r : Request) : State Response :=
  if decide (Method r ≠ MethodPost)
  then mret (httpError "Method not allowed" StatusMethodNotAllowed)
  else
    let bookID := FormValue r "id" in
    if decide (bookID = "")
    then mret (httpError "Invalid book ID" StatusBadRequest)
    else
      match primitive.ObjectIDFromHex bookID with
      | Err _ => mret (httpError "Invalid book ID" StatusBadRequest)
      | Ok objID =>
          let name := FormValue r "name" in
          let author := FormValue r "author" in
          let cost := FormValue r "cost" in
          match strconv.ParseFloat cost with
          | Err _ => mret (httpError "Invalid cost" StatusBadRequest)
          | Ok bookCost =>
              res ← mongo.UpdateOne objID name author bookCost;
              match res with
              | Err _ => mret (httpError "Failed to update book" StatusInternalServerError)
              | Ok _ => mret (Fprintf modifiedFragment)
              end
          end
      end.

(** ** Package [html/template]: escaping in text context *)
Module template.

(** U+FFFD in UTF-8. *)
Definition replacementChar : string :=
  String "239" (String "191" (String "189" "")).

(** [htmlReplacementTable]. *)
Definition replacement (c : ascii) : string :=
  match c with
  | "000"%char => replacementChar
  | "034"%char => "&#34;"
  | "&"%char => "&amp;"
  | "'"%char => "&#39;"
  | "+"%char => "&#43;"
  | "<"%char => "&lt;"
  | ">"%char => "&gt;"
  | _ => String c ""
  end.

(** [htmlEscaper] on a string value: every byte with an entry in the
    table is replaced, the others are copied. *)
Fixpoint htmlEscaper (s : string) : string :=
  match s with
  | "" => ""
  | String c s' => replacement c +:+ htmlEscaper s'
  end.

(** [hex.EncodeToString], as [ObjectID.Hex] uses it. *)
Definition hexDigit (n : Z) : ascii :=
  ascii_of_N (Z.to_N (if n <? 10 then ord "0" + n else ord "a" + (n - 10))).

Fixpoint Hex (id : list Z) : string :=
  match id with
  | [] => ""
  | b :: id' =>
      String (hexDigit (Z.shiftr b 4)) (String (hexDigit (Z.land b 15)) (Hex id'))
  end.

End template.




Fixpoint joinRows (rows : list string) : string :=
  match rows with
  | [] => ""
  | s :: rows' => s +:+ joinRows rows'
  end.

Section Page.

(** How the template prints a cost. *)
Variable FormatFloat : float64 -> string.

(** Modelled from the spec: the template file [index.html] is not among
    the sources.  The page is "an HTML document embedding a table/list
    of all records and a submission form", every field of a record
    being written in text context through the escaper of
    [html/template]. *)
Definition row (b : Book) : string :=
  "<tr><td>" +:+ template.htmlEscaper (Name b) +:+
  "</td><td>" +:+ template.htmlEscaper (Author b) +:+
  "</td><td>" +:+ template.htmlEscaper (FormatFloat (Cost b)) +:+
  "</td><td>" +:+ template.htmlEscaper (template.Hex (ID b)) +:+
  "</td></tr>".

(** Modelled from the spec: the submission form of [index.html]. *)
Definition submitForm : string :=
  "<form action='/submit' method='post'><input name='name'><input name='author'><input name='cost'><input type='submit'></form>".

(** Modelled from the spec: the parsed template of [index.html] (see
    [row]). *)
Definition index_html : Template := fun books =>
  "<html><body><table>" +:+ joinRows (row <$> books) +:+
  "</table>" +:+ submitForm +:+ "</body></html>".

End Page.


(** ** Concrete requests and worlds *)

(** A parsed form with one value per field. *)
Definition form (fields : list (string * string)) : gmap string (list string) :=
  list_to_map ((fun kv => (kv.1, [kv.2])) <$> fields).

Definition post (fields : list (string * string)) : Request :=
  {| Method := MethodPost; Form := form fields |}.

Definition sampleGenerator : primitive.Generator :=
  {| primitive.unixTime := 1700000000;
     primitive.processUnique := [17; 34; 51; 68; 85];
     primitive.objectIDCounter := 255 |}.

Definition duneID : ObjectID := [101; 83; 241; 0; 17; 34; 51; 68; 85; 0; 0; 1].
Definition emmaID : ObjectID := [101; 83; 241; 0; 17; 34; 51; 68; 85; 0; 0; 2].

(** 12.5 is 25/2 and -5 is itself, as binary64 values. *)
Definition twelveFifty : float64 := binary_normalize prec64 emax64 25 (-1) false.
Definition minusFive : float64 := binary_normalize prec64 emax64 (-5) 0 false.

Definition shelf : list Book :=
  [ {| ID := duneID; Name := "Dune"; Author := "Herbert"; Cost := twelveFifty |};
    {| ID := emmaID; Name := "Emma"; Author := "Austen"; Cost := twelveFifty |} ].

(** A process whose server answers, and one whose server does not. *)
Definition serverUp : World :=
  {| books := shelf; reachable := true;
     generator := sampleGenerator; calls := [];
     cursorFault := None |}.

Definition serverDown : World :=
  {| books := shelf; reachable := false;
     generator := sampleGenerator; calls := [];
     cursorFault := None |}.

(** The server answers [Find], but the cursor fails after the first
    document; or the second document does not decode. *)
Definition cursorFails : World :=
  {| books := shelf; reachable := true;
     generator := sampleGenerator; calls := [];
     cursorFault := Some (NextFault 1) |}.

Definition undecodable : World :=
  {| books := shelf; reachable := true;
     generator := sampleGenerator; calls := [];
     cursorFault := Some (DecodeFault 1) |}.

(** The same world during an outage: the server does not answer. *)
Definition outage (w : World) : World :=
  {| books := books w; reachable := false;
     generator := generator w; calls := calls w;
     cursorFault := cursorFault w |}.

(** A later world: the collection as a /submit (or a /modify) left it,
    met after an outage during which a list failed, with a later clock. *)
Definition laterAfterSubmit (r : Request) (w : World) : World :=
  {| books := books (handleSubmit r w).2; reachable := true;
     generator := {| primitive.unixTime := 1700003600;
                     primitive.processUnique := [17; 34; 51; 68; 85];
                     primitive.objectIDCounter := 256 |};
     calls := calls (handleSubmit r w).2 ++ [CallFind];
     cursorFault := Some (NextFault 0) |}.

Definition laterAfterModify (r : Request) (w : World) : World :=
  {| books := books (handleModify r w).2; reachable := true;
     generator := {| primitive.unixTime := 1700003600;
                     primitive.processUnique := [17; 34; 51; 68; 85];
                     primitive.objectIDCounter := 255 |};
     calls := calls (handleModify r w).2 ++ [CallFind];
     cursorFault := Some (NextFault 0) |}.

Definition laterAfterDelete (r : Request) (w : World) : World :=
  {| books := books (handleDelete r w).2; reachable := true;
     generator := {| primitive.unixTime := 1700003600;
                     primitive.processUnique := [17; 34; 51; 68; 85];
                     primitive.objectIDCounter := 255 |};
     calls := calls (handleDelete r w).2 ++ [CallFind];
     cursorFault := Some (NextFault 0) |}.

Definition duneHex : string := "6553f1001122334455000001".
Definition absentHex : string := "6553F10011223344550000ff".

Definition submitPersuasion : Request :=
  post [("name", "Persuasion"); ("author", "Austen"); ("cost", "12.50")].

(** The id the sample generator draws next, and the record /submit then
    stores. *)
Definition persuasionID : ObjectID := [101; 83; 241; 0; 17; 34; 51; 68; 85; 0; 1; 0].

Definition persuasion : Book :=
  {| ID := persuasionID; Name := "Persuasion"; Author := "Austen";
     Cost := twelveFifty |}.

(** The id [absentHex] spells, which no record of the shelf has. *)
Definition absentID : ObjectID := [101; 83; 241; 0; 17; 34; 51; 68; 85; 0; 0; 255].

Definition modifyAbsent : Request :=
  post [("id", absentHex); ("name", "Dune"); ("author", "F. Herbert");
        ("cost", "12.50")].

(** A process whose generator is about to draw the id of a stored
    record. *)
Definition serverColliding : World :=
  {| books := shelf; reachable := true;
     generator := {| primitive.unixTime := 1700000000;
                     primitive.processUnique := [17; 34; 51; 68; 85];
                     primitive.objectIDCounter := 0 |};
     calls := []; cursorFault := None |}.

Definition submitAbc : Request :=
  post [("name", "Persuasion"); ("author", "Austen"); ("cost", "abc")].

Definition submitMinusFive : Request :=
  post [("name", "Persuasion"); ("author", "Austen"); ("cost", "-5")].

Definition modifyAbc : Request :=
  post [("id", duneHex); ("name", "Dune"); ("author", "Herbert"); ("cost", "abc")].

Definition modifyMinusFive : Request :=
  post [("id", duneHex); ("name", "Dune"); ("author", "Herbert"); ("cost", "-5")].

Definition modifyDune : Request :=
  post [("id", duneHex); ("name", "Dune Messiah"); ("author", "Frank Herbert");
        ("cost", "12.50")].

Definition modifyBadIdBadCost : Request :=
  post [("id", "not-an-object-id"); ("name", "Dune"); ("author", "Herbert");
        ("cost", "abc")].

Definition deleteAbsent : Request := post [("id", absentHex)].
Definition deleteDune : Request := post [("id", duneHex)].

Definition getIndex : Request := {| Method := MethodGet; Form := ∅ |}.

Definition markupBook : Book :=
  {| ID := duneID; Name := "<b>X</b>"; Author := "A&B"; Cost := twelveFifty |}.

Definition markupWorld : World :=
  {| books := [markupBook]; reachable := true;
     generator := sampleGenerator; calls := [];
     cursorFault := None |}.

(** A cost printer for the sample page. *)
Definition showCost (c : float64) : string := "12.5".

(** ** The handlers as [main] registers them *)

(** The four patterns of [main]: ["/"], ["/submit"], ["/delete"] and
    ["/modify"], each bound to its handler by [http.HandleFunc]. *)
Inductive Endpoint : Type := Index | Submit | Delete | Modify.

Definition serve (tpl : Template) (e : Endpoint) : Request -> State Response :=
  match e with
  | Index => handleIndex tpl
  | Submit => handleSubmit
  | Delete => handleDelete
  | Modify => handleModify
  end.


(** A byte value. *)
Definition isByte (b : Z) : Prop := 0 <= b < 256.

(** A byte that [hex.Decode] accepts. *)
Definition isHexByte (c : Z) : Prop := is_Some (primitive.fromHexChar c).

(** A generator whose process bytes are the five bytes of
    [processUnique]. *)
Definition wfGenerator (g : primitive.Generator) : Prop :=
  length (primitive.processUnique g) = 5%nat /\
  Forall isByte (primitive.processUnique g).

(** Requests used below. *)
Definition getSubmit : Request :=
  {| Method := MethodGet;
     Form := form [("name", "Persuasion"); ("author", "Austen"); ("cost", "12.50")] |}.

Definition submitNoCost : Request :=
  post [("name", "Persuasion"); ("author", "Austen")].

Definition submitOnlyCost : Request := post [("cost", "12.50")].

Definition deletePersuasion : Request := post [("id", "6553f1001122334455000100")].

Definition deleteMalformed : Request := post [("id", "6553f10011223344550000zz")].

(** The outcome of one request, by status: a 400 or 405 answer comes
    with the world untouched, a 200 or 500 answer with exactly one more
    driver call in the log. *)
Definition oneCallOrNone (w : World) (out : Response * World) : Prop :=
  ((StatusCode out.1 = StatusBadRequest \/
    StatusCode out.1 = StatusMethodNotAllowed) /\ out.2 = w) \/
  ((StatusCode out.1 = StatusOK \/
    StatusCode out.1 = StatusInternalServerError) /\
   (exists c, calls out.2 = calls w ++ [c]) /\
   reachable out.2 = reachable w).

(** The bytes a float literal can be made of: digits, signs, the point,
    the underscore, and, in either case, the letters of the hexadecimal
    digits, of the prefix and exponent marks and of the infinities and
    NaN. *)
Definition floatByte (c : Z) : bool :=
  strconv.isDigit c || strconv.isHexLetter c ||
  (c =? ord "+") || (c =? ord "-") || (c =? ord ".") || (c =? ord "_") ||
  (strconv.lower c =? ord "x") || (strconv.lower c =? ord "p") ||
  (strconv.lower c =? ord "i") || (strconv.lower c =? ord "n") ||
  (strconv.lower c =? ord "t") || (strconv.lower c =? ord "y").

Definition submitSpacedCost : Request :=
  post [("name", "Persuasion"); ("author", "Austen"); ("cost", "12,50")].

(** Every answer the three mutation handlers can write. *)
Definition mutationAnswers : list Response :=
  [ httpError "Method not allowed" StatusMethodNotAllowed;
    httpError "Invalid cost" StatusBadRequest;
    httpError "Invalid book ID" StatusBadRequest;
    httpError "Failed to insert book" StatusInternalServerError;
    httpError "Failed to delete book" StatusInternalServerError;
    httpError "Failed to update book" StatusInternalServerError;
    Fprintf addedFragment;
    Fprintf notFoundFragment;
    Fprintf deletedFragment;
    Fprintf modifiedFragment ].

Definition deleteEmma : Request := post [("id", "6553f1001122334455000002")].

(** * Properties *)

(** ** Facts about the driver model *)

(** Unfolds the state monad so that a handler run becomes a term on the
    world. *)
Ltac run :=
  unfold mbind, State_bind, mret, State_ret, get, setBooks, logCall;
  cbn [books reachable generator calls cursorFault fst snd negb].

#[global] Arguments strconv.ParseFloat : simpl never.
#[global] Arguments primitive.ObjectIDFromHex : simpl never.
#[global] Arguments primitive.NewObjectID : simpl never.
#[global] Arguments primitive.IsZero : simpl never.
#[global] Arguments NewObjectID : simpl never.
#[global] Arguments FormValue : simpl never.

Section Driver.
Import mongo.

Implicit Types (l : list Book) (oid : ObjectID) (w : World).

Lemma deleteFirst_absent oid l :
  oid ∉ ids l -> deleteFirst oid l = (l, 0).
Proof.
  induction l as [|b l IH]; simpl; [done|].
  intros Hn. apply not_elem_of_cons in Hn as [Hb Hl].
  rewrite bool_decide_eq_false_2 by done.
  by rewrite IH.
Qed.

Lemma deleteFirst_present oid l :
  oid ∈ ids l ->
  exists l1 b l2, l = l1 ++ b :: l2 /\ ID b = oid /\ (oid ∉ ids l1) /\
                  deleteFirst oid l = (l1 ++ l2, 1).
Proof.
  induction l as [|b l IH]; simpl; intros Hin.
  - by apply elem_of_nil in Hin.
  - destruct (decide (ID b = oid)) as [Heq|Hne].
    + exists [], b, l. rewrite bool_decide_eq_true_2 by done.
      repeat split; [done | apply not_elem_of_nil].
    + apply elem_of_cons in Hin as [Heq|Hin]; [congruence|].
      destruct (IH Hin) as [l1 [b' [l2 [-> [Hid [Hn Hd]]]]]].
      exists (b :: l1), b', l2. rewrite bool_decide_eq_false_2 by done.
      rewrite Hd. repeat split; [done|].
      simpl. apply not_elem_of_cons. split; [congruence | done].
Qed.

Lemma setFirst_absent oid name author cost l :
  oid ∉ ids l -> setFirst oid name author cost l = (l, 0).
Proof.
  induction l as [|b l IH]; simpl; [done|].
  intros Hn. apply not_elem_of_cons in Hn as [Hb Hl].
  rewrite bool_decide_eq_false_2 by done.
  by rewrite IH.
Qed.

Lemma setFirst_present oid name author cost l :
  oid ∈ ids l ->
  exists l1 b l2, l = l1 ++ b :: l2 /\ ID b = oid /\ (oid ∉ ids l1) /\
    setFirst oid name author cost l =
      (l1 ++ {| ID := oid; Name := name; Author := author; Cost := cost |} :: l2, 1).
Proof.
  induction l as [|b l IH]; simpl; intros Hin.
  - by apply elem_of_nil in Hin.
  - destruct (decide (ID b = oid)) as [Heq|Hne].
    + exists [], b, l. rewrite bool_decide_eq_true_2 by done.
      rewrite Heq. split_and!; try done. apply not_elem_of_nil.
    + apply elem_of_cons in Hin as [Heq|Hin]; [congruence|].
      destruct (IH Hin) as [l1 [b' [l2 [-> [Hid [Hn Hd]]]]]].
      exists (b :: l1), b', l2. rewrite bool_decide_eq_false_2 by done.
      rewrite Hd. repeat split; [done|].
      simpl. apply not_elem_of_cons. split; [congruence | done].
Qed.

(** An update never touches an [_id]. *)
Lemma setFirst_ids oid name author cost l :
  ids (setFirst oid name author cost l).1 = ids l.
Proof.
  induction l as [|b l IH]; simpl; [done|].
  case_bool_decide; simpl; [done|].
  destruct (setFirst oid name author cost l) as [r n]. simpl in *.
  by rewrite IH.
Qed.

(** A delete leaves a sublist of the documents. *)
Lemma deleteFirst_sublist oid l : sublist (deleteFirst oid l).1 l.
Proof.
  induction l as [|b l IH]; simpl; [done|].
  case_bool_decide; simpl.
  - by apply sublist_cons.
  - destruct (deleteFirst oid l) as [r n]. simpl in *.
    by apply sublist_skip.
Qed.

Lemma DeleteOne_ok oid w :
  is_ok (DeleteOne oid w).1 = reachable w.
Proof.
  unfold DeleteOne. run. destruct (reachable w); simpl; [|done].
  by destruct (deleteFirst oid (books w)).
Qed.

Lemma UpdateOne_ok oid name author cost w :
  is_ok (UpdateOne oid name author cost w).1 = reachable w.
Proof.
  unfold UpdateOne. run. destruct (reachable w); simpl; [|done].
  by destruct (setFirst oid name author cost (books w)).
Qed.

End Driver.

(** Documents that decode are appended in order. *)
Lemma drain_app (l : list Book) (docs : list (result Book mongo.Error))
    (cursorErr : option mongo.Error) (acc : list Book) :
  drain ((Ok <$> l) ++ docs) cursorErr acc = drain docs cursorErr (acc ++ l).
Proof.
  revert acc. induction l as [|b l IH]; intros acc; simpl.
  - by rewrite app_nil_r.
  - rewrite IH. by rewrite <- app_assoc.
Qed.

Lemma drain_decoded (l : list Book) (cursorErr : option mongo.Error)
    (acc : list Book) :
  drain (Ok <$> l) cursorErr acc =
    match cursorErr with Some err => Err err | None => Ok (acc ++ l) end.
Proof.
  rewrite <- (app_nil_r (Ok <$> l)). by rewrite drain_app.
Qed.

(** A cursor that is read to its end without error gave every document
    of the collection, in order. *)
Lemma openCursor_sound (fault : option CursorFault) (l listed : list Book) :
  drain (mongo.remaining (mongo.openCursor fault l))
        (mongo.cursorErr (mongo.openCursor fault l)) [] = Ok listed ->
  listed = l.
Proof.
  destruct fault as [[n|n]|]; simpl.
  - rewrite drain_app. simpl.
    destruct (drop n l) as [|b l'] eqn:Hdrop; simpl; [|done].
    intros [= <-]. rewrite <- (take_drop n l) at 2.
    by rewrite Hdrop, app_nil_r.
  - by rewrite drain_decoded.
  - rewrite drain_decoded. by intros [= <-].
Qed.

(** [getBooks] makes one [Find] and writes nothing; its result is the
    driver's error when the server does not answer, and else what
    reading the cursor gives. *)
Lemma getBooks_run (w : World) :
  calls (getBooks w).2 = calls w ++ [CallFind] /\
  books (getBooks w).2 = books w /\
  reachable (getBooks w).2 = reachable w /\
  generator (getBooks w).2 = generator w /\
  (getBooks w).1 =
    if reachable w
    then drain (mongo.remaining (mongo.openCursor (cursorFault w) (books w)))
               (mongo.cursorErr (mongo.openCursor (cursorFault w) (books w))) []
    else Err mongo.ServerSelectionError.
Proof.
  unfold getBooks, mongo.Find. run. by destruct (reachable w).
Qed.

(** A list that succeeds returns the collection. *)
Lemma getBooks_ok (w : World) (listed : list Book) :
  (getBooks w).1 = Ok listed -> listed = books w.
Proof.
  destruct (getBooks_run w) as (_ & _ & _ & _ & ->).
  destruct (reachable w); [|done]. apply openCursor_sound.
Qed.

(** With a server that answers and a cursor that meets no fault, the
    list succeeds. *)
Lemma getBooks_healthy (w : World) :
  reachable w = true -> cursorFault w = None ->
  (getBooks w).1 = Ok (books w).
Proof.
  intros Hup Hfault. destruct (getBooks_run w) as (_ & _ & _ & _ & ->).
  rewrite Hup, Hfault. simpl. by rewrite drain_decoded.
Qed.

(** Each request meets the store on its own: after a create that
    succeeded, a list or a delete served during an outage fails, and an
    update answered 200 is answered 500 when repeated during one. *)
Lemma requests_fail_on_their_own :
  (handleSubmit submitPersuasion serverUp).1 = Fprintf addedFragment /\
  (getBooks (outage (handleSubmit submitPersuasion serverUp).2)).1 =
    Err mongo.ServerSelectionError /\
  (handleDelete deletePersuasion
     (outage (handleSubmit submitPersuasion serverUp).2)).1 =
    httpError "Failed to delete book" StatusInternalServerError /\
  (handleModify modifyDune serverUp).1 = Fprintf modifiedFragment /\
  (handleModify modifyDune (outage (handleModify modifyDune serverUp).2)).1 =
    httpError "Failed to update book" StatusInternalServerError.
Proof. vm_compute. done. Qed.

(** A list can fail after a [Find] that succeeded: the cursor stops with
    an error, or a document does not decode. *)
Lemma list_fails_after_find :
  reachable cursorFails = true /\
  (getBooks cursorFails).1 = Err mongo.CursorError /\
  reachable undecodable = true /\
  (getBooks undecodable).1 = Err mongo.DecodeError.
Proof. vm_compute. done. Qed.

(** ** Validation precedes the store *)

(** C8: a POST to /delete or /modify whose [id] field is missing (empty)
    is answered 400 "Invalid book ID", and the world that results is the
    world before: the collection is untouched and no driver call was
    logged. *)
Theorem missing_id_no_store_call (r : Request) (w : World) :
  Method r = MethodPost ->
  FormValue r "id" = "" ->
  handleDelete r w = (httpError "Invalid book ID" StatusBadRequest, w) /\
  handleModify r w = (httpError "Invalid book ID" StatusBadRequest, w).
Proof.
  intros Hm Hid. unfold handleDelete, handleModify.
  split; repeat case_decide; done.
Qed.

Lemma ObjectIDFromHex_nonempty (s : string) (oid : ObjectID) :
  primitive.ObjectIDFromHex s = Ok oid -> s ≠ "".
Proof. intros H ->. discriminate H. Qed.

(** What /modify does once the method, the id and the cost are accepted:
    one [UpdateOne] call, whose error alone decides the answer. *)
Lemma handleModify_valid (r : Request) (w : World) (objID : ObjectID) (bookCost : float64) :
  Method r = MethodPost ->
  primitive.ObjectIDFromHex (FormValue r "id") = Ok objID ->
  strconv.ParseFloat (FormValue r "cost") = Ok bookCost ->
  handleModify r w =
    let '(res, w') :=
      mongo.UpdateOne objID (FormValue r "name") (FormValue r "author") bookCost w in
    (match res with
     | Ok _ => Fprintf modifiedFragment
     | Err _ => httpError "Failed to update book" StatusInternalServerError
     end, w').
Proof.
  intros Hm Hid Hc. unfold handleModify.
  pose proof (ObjectIDFromHex_nonempty _ _ Hid).
  repeat case_decide; try done.
  rewrite Hid, Hc. run.
  destruct (mongo.UpdateOne _ _ _ _ w) as [[?|?] ?]; done.
Qed.

(** What /delete does once the method and the id are accepted. *)
Lemma handleDelete_valid (r : Request) (w : World) (objID : ObjectID) :
  Method r = MethodPost ->
  primitive.ObjectIDFromHex (FormValue r "id") = Ok objID ->
  handleDelete r w =
    let '(res, w') := mongo.DeleteOne objID w in
    (match res with
     | Ok result =>
         if mongo.DeletedCount result =? 0
         then Fprintf notFoundFragment else Fprintf deletedFragment
     | Err _ => httpError "Failed to delete book" StatusInternalServerError
     end, w').
Proof.
  intros Hm Hid. unfold handleDelete.
  pose proof (ObjectIDFromHex_nonempty _ _ Hid).
  repeat case_decide; try done.
  rewrite Hid. run.
  destruct (mongo.DeleteOne _ w) as [[res|?] ?]; [|done].
  by destruct (mongo.DeletedCount res =? 0).
Qed.

(** C10: on POST /modify the id is validated before the cost.  When the
    id field is missing or is not a well-formed ObjectID, the answer is
    400 "Invalid book ID" with the world untouched, and it is the same
    for every request that carries this id field, whatever its cost; and
    an answer "Invalid cost" implies a present, well-formed id. *)
Theorem modify_id_checked_before_cost (r : Request) (w : World) :
  Method r = MethodPost ->
  (FormValue r "id" = "" \/
   is_ok (primitive.ObjectIDFromHex (FormValue r "id")) = false ->
   forall r', Method r' = MethodPost ->
              FormValue r' "id" = FormValue r "id" ->
              handleModify r' w =
                (httpError "Invalid book ID" StatusBadRequest, w)) /\
  ((handleModify r w).1 = httpError "Invalid cost" StatusBadRequest ->
   FormValue r "id" ≠ "" /\
   is_ok (primitive.ObjectIDFromHex (FormValue r "id")) = true).
Proof.
  intros Hm. split.
  - intros Hbad r' Hm' Hid'. unfold handleModify. rewrite Hid'.
    repeat case_decide; try done.
    destruct Hbad as [?|Hbad]; [done|].
    by destruct (primitive.ObjectIDFromHex (FormValue r "id")).
  - unfold handleModify. repeat case_decide; try done.
    destruct (primitive.ObjectIDFromHex (FormValue r "id")) as [oid|e]; [|done].
    done.
Qed.

(** C2: a POST to /modify with a well-formed id and a parseable cost
    whose [UpdateOne] call returns no error is answered with status 200
    and the "modified" fragment, whether or not the id matched: when no
    record has the id, the collection is left as it was and the answer
    is the same. *)
Theorem modify_reports_modified
    (r : Request) (w : World) (objID : ObjectID) (bookCost : float64) :
  Method r = MethodPost ->
  primitive.ObjectIDFromHex (FormValue r "id") = Ok objID ->
  strconv.ParseFloat (FormValue r "cost") = Ok bookCost ->
  is_ok (mongo.UpdateOne objID (FormValue r "name") (FormValue r "author")
                         bookCost w).1 = true ->
  (handleModify r w).1 = Fprintf modifiedFragment /\
  StatusCode (handleModify r w).1 = StatusOK /\
  (objID ∉ mongo.ids (books w) -> books (handleModify r w).2 = books w).
Proof.
  intros Hm Hid Hc Hok.
  rewrite (handleModify_valid r w objID bookCost Hm Hid Hc).
  rewrite UpdateOne_ok in Hok.
  unfold mongo.UpdateOne. run. rewrite Hok. simpl.
  destruct (mongo.setFirst _ _ _ _ (books w)) as [l' n] eqn:Hs. simpl.
  split_and!; try done.
  intros Hn. rewrite setFirst_absent in Hs by done. congruence.
Qed.

(** ** Create *)

(** What /submit does once the method and the cost are accepted: the
    handler draws the id itself, then makes one [InsertOne] call. *)
Lemma handleSubmit_valid (r : Request) (w : World) (bookCost : float64) :
  Method r = MethodPost ->
  strconv.ParseFloat (FormValue r "cost") = Ok bookCost ->
  handleSubmit r w =
    let '(id, w1) := NewObjectID w in
    let '(res, w2) :=
      mongo.InsertOne {| ID := id; Name := FormValue r "name";
                         Author := FormValue r "author"; Cost := bookCost |} w1 in
    (match res with
     | Ok _ => Fprintf addedFragment
     | Err _ => httpError "Failed to insert book" StatusInternalServerError
     end, w2).
Proof.
  intros Hm Hc. unfold handleSubmit.
  case_decide; [done|]. rewrite Hc. run.
  destruct (NewObjectID w) as [id w1].
  destruct (mongo.InsertOne _ w1) as [[?|?] ?]; done.
Qed.

Lemma NewObjectID_frame (w : World) :
  books (NewObjectID w).2 = books w /\
  reachable (NewObjectID w).2 = reachable w /\
  calls (NewObjectID w).2 = calls w /\
  (NewObjectID w).1 = (primitive.NewObjectID (generator w)).1.
Proof.
  unfold NewObjectID. by destruct (primitive.NewObjectID (generator w)).
Qed.

(** The two outcomes of [InsertOne]: an error with the collection as it
    was, or a new last document under an [_id] no document had. *)
Lemma InsertOne_cases (document : Book) (w : World) :
  let '(res, w') := mongo.InsertOne document w in
  calls w' = calls w ++ [CallInsertOne document] /\
  reachable w' = reachable w /\
  match res with
  | Err _ => books w' = books w
  | Ok id =>
      reachable w = true /\
      (id ∉ mongo.ids (books w)) /\
      (primitive.IsZero (ID document) = false -> id = ID document) /\
      books w' = books w ++ [{| ID := id; Name := Name document;
                                Author := Author document;
                                Cost := Cost document |}]
  end.
Proof.
  unfold mongo.InsertOne. run.
  destruct (primitive.IsZero (ID document)) eqn:Hz.
  - unfold NewObjectID. simpl.
    destruct (primitive.NewObjectID (generator w)) as [id g]. simpl.
    destruct (reachable w) eqn:Hup; simpl; [|done].
    case_bool_decide; simpl; [done|].
    split_and!; done.
  - run. destruct (reachable w) eqn:Hup; simpl; [|done].
    case_bool_decide; simpl; [done|].
    split_and!; done.
Qed.

(** C1 (amended): a POST to /submit whose cost parses and whose insert
    does not fail is answered with the "added" fragment; the collection
    gains exactly one record, last, with the submitted name and author,
    the parsed cost and a newly drawn id (the one [NewObjectID] gave the
    handler, unless that is the zero ObjectID) that no record of the
    collection had; and a list read afterwards on the collection as the
    insert left it, in whatever state the environment then is, returns
    that record among its results whenever it does not fail itself. *)
Theorem submit_stores_record (r : Request) (w : World) (bookCost : float64) :
  Method r = MethodPost ->
  strconv.ParseFloat (FormValue r "cost") = Ok bookCost ->
  StatusCode (handleSubmit r w).1 ≠ StatusInternalServerError ->
  exists id : ObjectID,
    let book := {| ID := id; Name := FormValue r "name";
                   Author := FormValue r "author"; Cost := bookCost |} in
    (handleSubmit r w).1 = Fprintf addedFragment /\
    (let drawn := (primitive.NewObjectID (generator w)).1 in
     primitive.IsZero drawn = false -> id = drawn) /\
    (id ∉ mongo.ids (books w)) /\
    books (handleSubmit r w).2 = books w ++ [book] /\
    forall (w1 : World) (listed : list Book),
      books w1 = books (handleSubmit r w).2 ->
      (getBooks w1).1 = Ok listed ->
      book ∈ listed.
Proof.
  intros Hm Hc. rewrite (handleSubmit_valid r w bookCost Hm Hc).
  pose proof (NewObjectID_frame w) as (Hb & Hr & _ & Hdrawn).
  destruct (NewObjectID w) as [id0 w1]. simpl in Hb, Hr, Hdrawn.
  pose proof (InsertOne_cases
    {| ID := id0; Name := FormValue r "name";
       Author := FormValue r "author"; Cost := bookCost |} w1) as Hins.
  destruct (mongo.InsertOne _ w1) as [[id|e] w2]; simpl in *.
  - intros _. destruct Hins as (_ & Hr2 & Hup & Hfresh & Hsame & Hbooks).
    exists id. rewrite Hb in *. rewrite <- Hdrawn. split_and!; try done.
    intros wl listed Hcoll Hlisted.
    rewrite (getBooks_ok wl listed Hlisted), Hcoll, Hbooks.
    apply elem_of_app. right. apply list_elem_of_singleton. done.
  - intros H. by destruct H.
Qed.

(** The insert does not fail when the server answers and the id drawn is
    neither zero nor taken. *)
Lemma submit_succeeds (r : Request) (w : World) (bookCost : float64) :
  Method r = MethodPost ->
  strconv.ParseFloat (FormValue r "cost") = Ok bookCost ->
  reachable w = true ->
  primitive.IsZero (primitive.NewObjectID (generator w)).1 = false ->
  (primitive.NewObjectID (generator w)).1 ∉ mongo.ids (books w) ->
  (handleSubmit r w).1 = Fprintf addedFragment.
Proof.
  intros Hm Hc Hup Hz Hfresh. rewrite (handleSubmit_valid r w bookCost Hm Hc).
  unfold NewObjectID, mongo.InsertOne.
  destruct (primitive.NewObjectID (generator w)) as [id g]. simpl in *.
  run. rewrite Hz. run. rewrite Hup. run.
  by rewrite bool_decide_eq_false_2.
Qed.

(** A failed insert is answered 500 and leaves the collection as it
    was. *)
Lemma submit_failure (r : Request) (w : World) (bookCost : float64) :
  Method r = MethodPost ->
  strconv.ParseFloat (FormValue r "cost") = Ok bookCost ->
  StatusCode (handleSubmit r w).1 = StatusInternalServerError ->
  (handleSubmit r w).1 = httpError "Failed to insert book" StatusInternalServerError /\
  books (handleSubmit r w).2 = books w.
Proof.
  intros Hm Hc. rewrite (handleSubmit_valid r w bookCost Hm Hc).
  pose proof (NewObjectID_frame w) as (Hb & _).
  destruct (NewObjectID w) as [id0 w1]. simpl in Hb.
  pose proof (InsertOne_cases
    {| ID := id0; Name := FormValue r "name";
       Author := FormValue r "author"; Cost := bookCost |} w1) as Hins.
  destruct (mongo.InsertOne _ w1) as [[id|e] w2]; simpl in *; [done|].
  intros _. split; [done|]. destruct Hins as (_ & _ & ->). done.
Qed.

(** ** Frames: what each handler can do to the collection *)

Lemma submit_frame (r : Request) (w : World) :
  books w `prefix_of` books (handleSubmit r w).2.
Proof.
  unfold handleSubmit. case_decide; [done|].
  destruct (strconv.ParseFloat (FormValue r "cost")) as [c|e]; [|done]. run.
  pose proof (NewObjectID_frame w) as (Hb & _).
  destruct (NewObjectID w) as [id0 w1]. simpl in Hb.
  match goal with |- context [mongo.InsertOne ?d w1] =>
    pose proof (InsertOne_cases d w1) as Hins;
    destruct (mongo.InsertOne d w1) as [[id|e] w2] end; simpl.
  - destruct Hins as (_ & _ & _ & _ & _ & ->). rewrite Hb.
    by apply prefix_app_r.
  - destruct Hins as (_ & _ & ->). by rewrite Hb.
Qed.

Lemma delete_frame (r : Request) (w : World) :
  sublist (books (handleDelete r w).2) (books w).
Proof.
  unfold handleDelete. repeat case_decide; try done.
  destruct (primitive.ObjectIDFromHex (FormValue r "id")) as [oid|e]; [|done].
  unfold mongo.DeleteOne. run.
  destruct (reachable w); simpl; [|done].
  pose proof (deleteFirst_sublist oid (books w)) as Hs.
  destruct (mongo.deleteFirst oid (books w)) as [l' n]. simpl in *.
  by destruct (n =? 0).
Qed.

Lemma modify_frame (r : Request) (w : World) :
  mongo.ids (books (handleModify r w).2) = mongo.ids (books w).
Proof.
  unfold handleModify. repeat case_decide; try done.
  destruct (primitive.ObjectIDFromHex (FormValue r "id")) as [oid|e]; [|done].
  destruct (strconv.ParseFloat (FormValue r "cost")) as [c|e]; [|done].
  unfold mongo.UpdateOne. run.
  destruct (reachable w); simpl; [|done].
  pose proof (setFirst_ids oid (FormValue r "name") (FormValue r "author") c
                (books w)) as Hs.
  by destruct (mongo.setFirst _ _ _ _ (books w)) as [l' n].
Qed.


(** C3 (amended): the id of a record is drawn by the create handler
    itself, with [primitive.NewObjectID], and travels to the store inside
    the record given to [InsertOne]; when that id is not the zero
    ObjectID and the insert succeeds, it is the id the record is stored
    under.  No handler changes the id of an existing record afterwards: a
    create only appends, an update keeps the sequence of ids, a delete
    leaves a sublist of the records. *)
Theorem id_drawn_by_handler_and_kept (r : Request) (w : World) :
  (forall bookCost : float64,
     Method r = MethodPost ->
     strconv.ParseFloat (FormValue r "cost") = Ok bookCost ->
     let book := {| ID := (primitive.NewObjectID (generator w)).1;
                    Name := FormValue r "name";
                    Author := FormValue r "author"; Cost := bookCost |} in
     calls (handleSubmit r w).2 = calls w ++ [CallInsertOne book] /\
     (primitive.IsZero (ID book) = false ->
      StatusCode (handleSubmit r w).1 = StatusOK ->
      books (handleSubmit r w).2 = books w ++ [book])) /\
  books w `prefix_of` books (handleSubmit r w).2 /\
  mongo.ids (books (handleModify r w).2) = mongo.ids (books w) /\
  sublist (books (handleDelete r w).2) (books w).
Proof.
  split_and!;
    [| apply submit_frame | apply modify_frame | apply delete_frame].
  intros bookCost Hm Hc. simpl.
  rewrite (handleSubmit_valid r w bookCost Hm Hc).
  pose proof (NewObjectID_frame w) as (Hb & _ & Hcalls & Hid).
  destruct (NewObjectID w) as [id0 w1]. simpl in Hb, Hcalls, Hid. subst id0.
  match goal with |- context [mongo.InsertOne ?d w1] =>
    pose proof (InsertOne_cases d w1) as Hins;
    destruct (mongo.InsertOne d w1) as [[id|e] w2] end; simpl in *.
  - destruct Hins as (-> & _ & _ & _ & Hsame & ->). rewrite Hb, Hcalls.
    split; [done|]. intros Hz _. by rewrite (Hsame Hz).
  - destruct Hins as (-> & _ & _). rewrite Hcalls. split; [done|].
    intros _ H. discriminate H.
Qed.

(** ** The cost gate *)

(** C4 (amended): /submit and /modify change the world (collection or
    driver log) only when [strconv.ParseFloat] accepts the cost text,
    whatever the sign or base of the number; "12.50" is accepted as 12.5
    and "abc" is not accepted; a POST whose cost is not accepted is
    answered 400 and leaves the world as it was. *)
Theorem cost_gate (r : Request) (w : World) :
  strconv.ParseFloat "12.50" = Ok twelveFifty /\
  strconv.ParseFloat "abc" = Err strconv.ErrSyntax /\
  ((handleSubmit r w).2 ≠ w -> is_ok (strconv.ParseFloat (FormValue r "cost")) = true) /\
  ((handleModify r w).2 ≠ w -> is_ok (strconv.ParseFloat (FormValue r "cost")) = true) /\
  (Method r = MethodPost ->
   is_ok (strconv.ParseFloat (FormValue r "cost")) = false ->
   handleSubmit r w = (httpError "Invalid cost" StatusBadRequest, w) /\
   StatusCode (handleModify r w).1 = StatusBadRequest /\
   (handleModify r w).2 = w).
Proof.
  split_and!.
  - by vm_compute.
  - by vm_compute.
  - unfold handleSubmit. case_decide; [done|].
    by destruct (strconv.ParseFloat (FormValue r "cost")).
  - unfold handleModify. repeat case_decide; try done.
    destruct (primitive.ObjectIDFromHex (FormValue r "id")); [|done].
    by destruct (strconv.ParseFloat (FormValue r "cost")).
  - intros Hm Hbad. unfold handleSubmit, handleModify.
    repeat case_decide; try done;
      destruct (strconv.ParseFloat (FormValue r "cost")); try done;
      by destruct (primitive.ObjectIDFromHex (FormValue r "id")).
Qed.

(** ** Delete *)

(** A delete of an absent id, when the driver call succeeds. *)
Lemma delete_absent_not_found_aux (r : Request) (w : World) (objID : ObjectID) :
  Method r = MethodPost ->
  primitive.ObjectIDFromHex (FormValue r "id") = Ok objID ->
  objID ∉ mongo.ids (books w) ->
  is_ok (mongo.DeleteOne objID w).1 = true ->
  (handleDelete r w).1 = Fprintf notFoundFragment /\
  books (handleDelete r w).2 = books w.
Proof.
  intros Hm Hid Hn Hok. rewrite (handleDelete_valid r w objID Hm Hid).
  rewrite DeleteOne_ok in Hok. unfold mongo.DeleteOne. run.
  rewrite Hok. run. by rewrite (deleteFirst_absent objID (books w) Hn).
Qed.

(** C5 (amended): a POST to /delete with a well-formed id that no record
    has, whose [DeleteOne] call returns no error, is answered with
    status 200 and the "not found" fragment, and the collection is the
    one before the request. *)
Theorem delete_absent_not_found (r : Request) (w : World) (objID : ObjectID) :
  Method r = MethodPost ->
  primitive.ObjectIDFromHex (FormValue r "id") = Ok objID ->
  objID ∉ mongo.ids (books w) ->
  is_ok (mongo.DeleteOne objID w).1 = true ->
  (handleDelete r w).1 = Fprintf notFoundFragment /\
  StatusCode (handleDelete r w).1 = StatusOK /\
  books (handleDelete r w).2 = books w.
Proof.
  intros Hm Hid Hn Hok.
  destruct (delete_absent_not_found_aux r w objID Hm Hid Hn Hok) as [-> ->].
  done.
Qed.

(** What a delete of a present id does when the driver call succeeds. *)
Lemma delete_present (r : Request) (w : World) (objID : ObjectID) :
  Method r = MethodPost ->
  primitive.ObjectIDFromHex (FormValue r "id") = Ok objID ->
  objID ∈ mongo.ids (books w) ->
  reachable w = true ->
  (handleDelete r w).1 = Fprintf deletedFragment /\
  reachable (handleDelete r w).2 = true /\
  exists l1 b l2,
    books w = l1 ++ b :: l2 /\ ID b = objID /\ (objID ∉ mongo.ids l1) /\
    books (handleDelete r w).2 = l1 ++ l2.
Proof.
  intros Hm Hid Hin Hup. rewrite (handleDelete_valid r w objID Hm Hid).
  unfold mongo.DeleteOne. run. rewrite Hup. run.
  destruct (deleteFirst_present objID (books w) Hin)
    as (l1 & b & l2 & Hl & Hb & Hn & ->).
  simpl. split_and!; try done. by exists l1, b, l2.
Qed.

(** C6 (amended): in a collection whose ids are pairwise distinct, when
    neither [DeleteOne] call returns an error, the first POST to /delete
    with the id of a stored record removes that record and no other and
    reports "deleted"; the same request repeated at once removes nothing
    and reports "not found". *)
Theorem delete_twice (r : Request) (w : World) (objID : ObjectID) :
  Method r = MethodPost ->
  primitive.ObjectIDFromHex (FormValue r "id") = Ok objID ->
  NoDup (mongo.ids (books w)) ->
  objID ∈ mongo.ids (books w) ->
  is_ok (mongo.DeleteOne objID w).1 = true ->
  is_ok (mongo.DeleteOne objID (handleDelete r w).2).1 = true ->
  let w1 := (handleDelete r w).2 in
  (handleDelete r w).1 = Fprintf deletedFragment /\
  (exists l1 b l2,
     books w = l1 ++ b :: l2 /\ ID b = objID /\ books w1 = l1 ++ l2 /\
     length (books w1) = (length (books w) - 1)%nat) /\
  (objID ∉ mongo.ids (books w1)) /\
  (handleDelete r w1).1 = Fprintf notFoundFragment /\
  books (handleDelete r w1).2 = books w1.
Proof.
  intros Hm Hid Hnd Hin Hok Hok1 w1. subst w1.
  rewrite DeleteOne_ok in Hok.
  destruct (delete_present r w objID Hm Hid Hin Hok)
    as (Hresp & Hup1 & l1 & b & l2 & Hl & Hb & Hn1 & Hl').
  assert (objID ∉ mongo.ids (books (handleDelete r w).2)) as Hgone.
  { rewrite Hl'. rewrite Hl in Hnd. unfold mongo.ids in *.
    rewrite fmap_app in *. rewrite fmap_cons in Hnd.
    apply NoDup_app in Hnd as (_ & Hdisj & Hnd2).
    apply NoDup_cons in Hnd2 as [Hn2 _]. rewrite Hb in Hn2.
    intros [?|?]%elem_of_app; done. }
  destruct (delete_absent_not_found_aux r (handleDelete r w).2 objID Hm Hid Hgone Hok1)
    as (Hresp2 & Hbooks2).
  split_and!; try done.
  exists l1, b, l2. split_and!; try done.
  rewrite Hl', Hl. rewrite !length_app. simpl. lia.
Qed.

(** ** Update *)

(** C7 (amended): a POST to /modify with the id of a stored record and a
    parseable cost, whose [UpdateOne] call returns no error, replaces
    the name, author and cost of the first record with that id by the
    submitted values; the record keeps its id and its place, and every
    other record is as before.  With pairwise distinct ids it is the
    only record with that id. *)
Theorem modify_overwrites_one
    (r : Request) (w : World) (objID : ObjectID) (bookCost : float64) :
  Method r = MethodPost ->
  primitive.ObjectIDFromHex (FormValue r "id") = Ok objID ->
  strconv.ParseFloat (FormValue r "cost") = Ok bookCost ->
  objID ∈ mongo.ids (books w) ->
  is_ok (mongo.UpdateOne objID (FormValue r "name") (FormValue r "author")
                         bookCost w).1 = true ->
  exists l1 b l2,
    books w = l1 ++ b :: l2 /\ ID b = objID /\ (objID ∉ mongo.ids l1) /\
    (NoDup (mongo.ids (books w)) -> objID ∉ mongo.ids l2) /\
    books (handleModify r w).2 =
      l1 ++ {| ID := objID; Name := FormValue r "name";
               Author := FormValue r "author"; Cost := bookCost |} :: l2.
Proof.
  intros Hm Hid Hc Hin Hok.
  rewrite (handleModify_valid r w objID bookCost Hm Hid Hc).
  rewrite UpdateOne_ok in Hok. unfold mongo.UpdateOne. run. rewrite Hok. run.
  destruct (setFirst_present objID (FormValue r "name") (FormValue r "author")
              bookCost (books w) Hin) as (l1 & b & l2 & Hl & Hb & Hn & ->).
  simpl. exists l1, b, l2. split_and!; try done.
  intros Hnd. rewrite Hl in Hnd. unfold mongo.ids in *.
  rewrite fmap_app, fmap_cons in Hnd.
  apply NoDup_app in Hnd as (_ & _ & Hnd2).
  apply NoDup_cons in Hnd2 as [Hn2 _]. by rewrite Hb in Hn2.
Qed.

(** ** The listing page *)










(** ** The theorems at concrete requests *)

Ltac decided := apply (bool_decide_unpack _); vm_compute; exact I.

(** A create on a reachable store with a fresh generated id succeeds. *)
Lemma submit_stores_record_witness :
  exists id : ObjectID,
    (handleSubmit submitPersuasion serverUp).1 = Fprintf addedFragment /\
    (primitive.IsZero persuasionID = false -> id = persuasionID) /\
    (id ∉ mongo.ids shelf) /\
    books (handleSubmit submitPersuasion serverUp).2 =
      shelf ++ [{| ID := id; Name := "Persuasion"; Author := "Austen";
                   Cost := twelveFifty |}] /\
    forall (w1 : World) (listed : list Book),
      books w1 = books (handleSubmit submitPersuasion serverUp).2 ->
      (getBooks w1).1 = Ok listed ->
      {| ID := id; Name := "Persuasion"; Author := "Austen";
         Cost := twelveFifty |} ∈ listed.
Proof.
  apply (submit_stores_record submitPersuasion serverUp twelveFifty).
  - reflexivity.
  - vm_compute. reflexivity.
  - vm_compute. discriminate.
Defined.

(** The list read right after that create, the server still answering:
    the shelf and the new record. *)
Lemma list_after_submit :
  (getBooks (handleSubmit submitPersuasion serverUp).2).1 =
    Ok (shelf ++ [persuasion]).
Proof. vm_compute. reflexivity. Qed.

(** C1 as stated fails: the cost "12.50" parses, yet with a server that
    does not answer the insert fails, the answer is 500 and no record is
    added. *)
Lemma submit_insert_fails_when_store_down :
  Method submitPersuasion = MethodPost /\
  strconv.ParseFloat (FormValue submitPersuasion "cost") = Ok twelveFifty /\
  (handleSubmit submitPersuasion serverDown).1 =
    httpError "Failed to insert book" StatusInternalServerError /\
  books (handleSubmit submitPersuasion serverDown).2 = shelf /\
  (getBooks (handleSubmit submitPersuasion serverDown).2).1 =
    Err mongo.ServerSelectionError.
Proof. vm_compute. done. Qed.

(** The insert also fails on a reachable store when the id drawn is the
    id of a stored record. *)
Lemma submit_duplicate_id :
  (primitive.NewObjectID (generator serverColliding)).1 = duneID /\
  (handleSubmit submitPersuasion serverColliding).1 =
    httpError "Failed to insert book" StatusInternalServerError /\
  books (handleSubmit submitPersuasion serverColliding).2 = shelf.
Proof. vm_compute. done. Qed.

Lemma modify_reports_modified_witness :
  (handleModify modifyAbsent serverUp).1 = Fprintf modifiedFragment /\
  StatusCode (handleModify modifyAbsent serverUp).1 = StatusOK /\
  (absentID ∉ mongo.ids shelf ->
   books (handleModify modifyAbsent serverUp).2 = shelf).
Proof.
  apply (modify_reports_modified modifyAbsent serverUp absentID twelveFifty).
  - reflexivity.
  - vm_compute. reflexivity.
  - vm_compute. reflexivity.
  - vm_compute. reflexivity.
Defined.

Lemma id_drawn_by_handler_and_kept_witness :
  calls (handleSubmit submitPersuasion serverUp).2 = [CallInsertOne persuasion] /\
  books (handleSubmit submitPersuasion serverUp).2 = shelf ++ [persuasion].
Proof.
  destruct (id_drawn_by_handler_and_kept submitPersuasion serverUp) as [H _].
  assert (strconv.ParseFloat (FormValue submitPersuasion "cost") = Ok twelveFifty)
    as Hc by (vm_compute; reflexivity).
  destruct (H twelveFifty eq_refl Hc) as [Hcalls Hbooks].
  split.
  - exact Hcalls.
  - apply Hbooks; vm_compute; reflexivity.
Defined.

(** C3 as stated fails: the record handed to [InsertOne] already carries
    an id, the one the handler drew, and the store keeps that id. *)
Lemma submit_passes_record_with_id :
  calls (handleSubmit submitPersuasion serverUp).2 = [CallInsertOne persuasion] /\
  primitive.IsZero (ID persuasion) = false /\
  ID persuasion = (primitive.NewObjectID (generator serverUp)).1 /\
  books (handleSubmit submitPersuasion serverUp).2 = shelf ++ [persuasion].
Proof. vm_compute. done. Qed.

Lemma cost_gate_witness :
  is_ok (strconv.ParseFloat (FormValue submitPersuasion "cost")) = true /\
  handleSubmit submitAbc serverUp =
    (httpError "Invalid cost" StatusBadRequest, serverUp) /\
  StatusCode (handleModify modifyAbc serverUp).1 = StatusBadRequest /\
  (handleModify modifyAbc serverUp).2 = serverUp.
Proof.
  split.
  - destruct (cost_gate submitPersuasion serverUp) as (_ & _ & H & _).
    apply H. intros Heq. apply (f_equal calls) in Heq.
    vm_compute in Heq. discriminate Heq.
  - destruct (cost_gate submitAbc serverUp) as (_ & _ & _ & _ & Hs).
    destruct (cost_gate modifyAbc serverUp) as (_ & _ & _ & _ & Hm).
    destruct Hs as (Hs & _); [reflexivity | vm_compute; reflexivity |].
    destruct Hm as (_ & Hm); [reflexivity | vm_compute; reflexivity |].
    split; [exact Hs | exact Hm].
Defined.

(** C4 as stated fails: "-5" is not a non-negative number, yet it is
    accepted, and a record with the negative cost is stored by /submit
    and written by /modify. *)
Lemma negative_cost_is_stored :
  strconv.ParseFloat "-5" = Ok minusFive /\
  SFcompare minusFive (S754_zero false) = Some Lt /\
  (handleSubmit submitMinusFive serverUp).1 = Fprintf addedFragment /\
  books (handleSubmit submitMinusFive serverUp).2 =
    shelf ++ [{| ID := persuasionID; Name := "Persuasion"; Author := "Austen";
                 Cost := minusFive |}] /\
  (handleModify modifyMinusFive serverUp).1 = Fprintf modifiedFragment /\
  books (handleModify modifyMinusFive serverUp).2 =
    [ {| ID := duneID; Name := "Dune"; Author := "Herbert"; Cost := minusFive |};
      {| ID := emmaID; Name := "Emma"; Author := "Austen"; Cost := twelveFifty |} ].
Proof. vm_compute. done. Qed.

Lemma delete_absent_not_found_witness :
  (handleDelete deleteAbsent serverUp).1 = Fprintf notFoundFragment /\
  StatusCode (handleDelete deleteAbsent serverUp).1 = StatusOK /\
  books (handleDelete deleteAbsent serverUp).2 = shelf.
Proof.
  apply (delete_absent_not_found deleteAbsent serverUp absentID).
  - reflexivity.
  - vm_compute. reflexivity.
  - decided.
  - vm_compute. reflexivity.
Defined.

(** C5 as stated fails: the id is well-formed and matches no record, yet
    with a server that does not answer the delete is answered 500. *)
Lemma delete_absent_errors_when_store_down :
  Method deleteAbsent = MethodPost /\
  primitive.ObjectIDFromHex (FormValue deleteAbsent "id") = Ok absentID /\
  bool_decide (absentID ∈ mongo.ids (books serverDown)) = false /\
  (handleDelete deleteAbsent serverDown).1 =
    httpError "Failed to delete book" StatusInternalServerError /\
  StatusCode (handleDelete deleteAbsent serverDown).1 = 500.
Proof. vm_compute. done. Qed.

Lemma delete_twice_witness :
  let w1 := (handleDelete deleteDune serverUp).2 in
  (handleDelete deleteDune serverUp).1 = Fprintf deletedFragment /\
  (exists l1 b l2,
     books serverUp = l1 ++ b :: l2 /\ ID b = duneID /\ books w1 = l1 ++ l2 /\
     length (books w1) = (length (books serverUp) - 1)%nat) /\
  (duneID ∉ mongo.ids (books w1)) /\
  (handleDelete deleteDune w1).1 = Fprintf notFoundFragment /\
  books (handleDelete deleteDune w1).2 = books w1.
Proof.
  apply (delete_twice deleteDune serverUp duneID).
  - reflexivity.
  - vm_compute. reflexivity.
  - decided.
  - decided.
  - vm_compute. reflexivity.
  - vm_compute. reflexivity.
Defined.

(** C6 as stated fails: the id is in the store, yet with a server that
    does not answer the first delete removes nothing and reports no
    "deleted". *)
Lemma delete_present_fails_when_store_down :
  Method deleteDune = MethodPost /\
  primitive.ObjectIDFromHex (FormValue deleteDune "id") = Ok duneID /\
  bool_decide (duneID ∈ mongo.ids (books serverDown)) = true /\
  (handleDelete deleteDune serverDown).1 =
    httpError "Failed to delete book" StatusInternalServerError /\
  books (handleDelete deleteDune serverDown).2 = books serverDown.
Proof. vm_compute. done. Qed.

Lemma modify_overwrites_one_witness :
  exists l1 b l2,
    books serverUp = l1 ++ b :: l2 /\ ID b = duneID /\ (duneID ∉ mongo.ids l1) /\
    (NoDup (mongo.ids (books serverUp)) -> duneID ∉ mongo.ids l2) /\
    books (handleModify modifyDune serverUp).2 =
      l1 ++ {| ID := duneID; Name := "Dune Messiah"; Author := "Frank Herbert";
               Cost := twelveFifty |} :: l2.
Proof.
  apply (modify_overwrites_one modifyDune serverUp duneID twelveFifty).
  - reflexivity.
  - vm_compute. reflexivity.
  - vm_compute. reflexivity.
  - decided.
  - vm_compute. reflexivity.
Defined.

(** C7 as stated fails: the id is in the store and the fields are valid,
    yet with a server that does not answer nothing is overwritten. *)
Lemma modify_present_fails_when_store_down :
  Method modifyDune = MethodPost /\
  primitive.ObjectIDFromHex (FormValue modifyDune "id") = Ok duneID /\
  strconv.ParseFloat (FormValue modifyDune "cost") = Ok twelveFifty /\
  bool_decide (duneID ∈ mongo.ids (books serverDown)) = true /\
  (handleModify modifyDune serverDown).1 =
    httpError "Failed to update book" StatusInternalServerError /\
  books (handleModify modifyDune serverDown).2 = books serverDown.
Proof. vm_compute. done. Qed.

Lemma missing_id_no_store_call_witness :
  handleDelete submitPersuasion serverUp =
    (httpError "Invalid book ID" StatusBadRequest, serverUp) /\
  handleModify submitPersuasion serverUp =
    (httpError "Invalid book ID" StatusBadRequest, serverUp).
Proof.
  apply (missing_id_no_store_call submitPersuasion serverUp); reflexivity.
Defined.


(** The page written for a record named [<b>X</b>]. *)
Lemma listing_of_markup_name :
  (handleIndex (index_html showCost) getIndex markupWorld).1 =
    {| StatusCode := 200;
       Body := "<html><body><table><tr><td>&lt;b&gt;X&lt;/b&gt;</td><td>A&amp;B</td><td>12.5</td><td>6553f1001122334455000001</td></tr></table><form action='/submit' method='post'><input name='name'><input name='author'><input name='cost'><input type='submit'></form></body></html>" |}.
Proof. vm_compute. reflexivity. Qed.

Lemma modify_id_checked_before_cost_witness :
  handleModify modifyBadIdBadCost serverUp =
    (httpError "Invalid book ID" StatusBadRequest, serverUp) /\
  (FormValue modifyAbc "id" ≠ "" /\
   is_ok (primitive.ObjectIDFromHex (FormValue modifyAbc "id")) = true).
Proof.
  split.
  - destruct (modify_id_checked_before_cost modifyBadIdBadCost serverUp eq_refl)
      as [H _].
    apply H; [right; vm_compute; reflexivity | reflexivity | reflexivity].
  - destruct (modify_id_checked_before_cost modifyAbc serverUp eq_refl)
      as [_ H].
    apply H. vm_compute. reflexivity.
Defined.


(** * Further properties of the handlers *)

(** ** Methods *)

(** X1: a request with another method than the handler's own (GET for the
    listing, POST for the three mutations) is answered 405 "Method not
    allowed", and the world is the one before: no form field is read and
    no driver call is made. *)
Theorem method_not_allowed (tpl : Template) (r : Request) (w : World) :
  (Method r ≠ MethodGet ->
   handleIndex tpl r w =
     (httpError "Method not allowed" StatusMethodNotAllowed, w)) /\
  (Method r ≠ MethodPost ->
   handleSubmit r w =
     (httpError "Method not allowed" StatusMethodNotAllowed, w) /\
   handleDelete r w =
     (httpError "Method not allowed" StatusMethodNotAllowed, w) /\
   handleModify r w =
     (httpError "Method not allowed" StatusMethodNotAllowed, w)).
Proof.
  split; intros Hm.
  - unfold handleIndex. by case_decide.
  - unfold handleSubmit, handleDelete, handleModify.
    split_and!; by case_decide.
Qed.

Lemma method_not_allowed_witness :
  handleIndex (index_html showCost) submitPersuasion serverUp =
    (httpError "Method not allowed" StatusMethodNotAllowed, serverUp) /\
  handleSubmit getSubmit serverUp =
    (httpError "Method not allowed" StatusMethodNotAllowed, serverUp) /\
  handleDelete getSubmit serverUp =
    (httpError "Method not allowed" StatusMethodNotAllowed, serverUp) /\
  handleModify getSubmit serverUp =
    (httpError "Method not allowed" StatusMethodNotAllowed, serverUp).
Proof.
  split.
  - apply (method_not_allowed (index_html showCost) submitPersuasion serverUp).
    vm_compute. discriminate.
  - apply (method_not_allowed (index_html showCost) getSubmit serverUp).
    vm_compute. discriminate.
Defined.

(** ** Driver calls per request *)

Lemma InsertOne_calls (document : Book) (w : World) :
  calls (mongo.InsertOne document w).2 = calls w ++ [CallInsertOne document] /\
  reachable (mongo.InsertOne document w).2 = reachable w.
Proof.
  pose proof (InsertOne_cases document w) as H.
  destruct (mongo.InsertOne document w) as [res w']. simpl.
  by destruct H as (? & ? & _).
Qed.

Lemma DeleteOne_calls (oid : ObjectID) (w : World) :
  calls (mongo.DeleteOne oid w).2 = calls w ++ [CallDeleteOne oid] /\
  reachable (mongo.DeleteOne oid w).2 = reachable w.
Proof.
  unfold mongo.DeleteOne. run. destruct (reachable w) eqn:Hup; simpl; [|done].
  by destruct (mongo.deleteFirst oid (books w)).
Qed.

Lemma UpdateOne_calls (oid : ObjectID) (name author : string) (cost : float64)
    (w : World) :
  calls (mongo.UpdateOne oid name author cost w).2 =
    calls w ++ [CallUpdateOne oid name author cost] /\
  reachable (mongo.UpdateOne oid name author cost w).2 = reachable w.
Proof.
  unfold mongo.UpdateOne. run. destruct (reachable w) eqn:Hup; simpl; [|done].
  by destruct (mongo.setFirst oid name author cost (books w)).
Qed.

Lemma one_call_or_none
    (tpl : Template) (e : Endpoint) (r : Request) (w : World) :
  oneCallOrNone w (serve tpl e r w).
Proof.
  unfold oneCallOrNone. destruct e; simpl.
  - unfold handleIndex. case_decide; [left; split; [by right|done]|].
    run. pose proof (getBooks_run w) as (Hc & _ & Hr & _ & _).
    destruct (getBooks w) as [[l|err] w']; simpl in *;
      right; (split; [|split; [by eexists|done]]); [by left | by right].
  - unfold handleSubmit. case_decide; [left; split; [by right|done]|].
    destruct (strconv.ParseFloat (FormValue r "cost")) as [c|err];
      [|left; split; [by left|done]].
    run. pose proof (NewObjectID_frame w) as (_ & Hr0 & Hc0 & _).
    destruct (NewObjectID w) as [id0 w1]. simpl in Hr0, Hc0.
    match goal with |- context [mongo.InsertOne ?d w1] =>
      pose proof (InsertOne_calls d w1) as [Hc Hr];
      destruct (mongo.InsertOne d w1) as [[id|err] w2] end; simpl in *;
      right; rewrite Hc, Hr, Hc0, Hr0;
      (split; [|split; [by eexists|done]]); [by left | by right].
  - unfold handleDelete. case_decide; [left; split; [by right|done]|].
    case_decide; [left; split; [by left|done]|].
    destruct (primitive.ObjectIDFromHex (FormValue r "id")) as [oid|err];
      [|left; split; [by left|done]].
    run. pose proof (DeleteOne_calls oid w) as [Hc Hr].
    destruct (mongo.DeleteOne oid w) as [[res|err] w']; simpl in *.
    + right. destruct (mongo.DeletedCount res =? 0); simpl;
        (split; [by left|split; [by eexists|done]]).
    + right. split; [by right|split; [by eexists|done]].
  - unfold handleModify. case_decide; [left; split; [by right|done]|].
    case_decide; [left; split; [by left|done]|].
    destruct (primitive.ObjectIDFromHex (FormValue r "id")) as [oid|err];
      [|left; split; [by left|done]].
    destruct (strconv.ParseFloat (FormValue r "cost")) as [c|err];
      [|left; split; [by left|done]].
    run.
    pose proof (UpdateOne_calls oid (FormValue r "name") (FormValue r "author")
                  c w) as [Hc Hr].
    destruct (mongo.UpdateOne _ _ _ _ w) as [[res|err] w']; simpl in *;
      right; (split; [|split; [by eexists|done]]); [by left | by right].
Qed.

(** X2: whatever the handler and the request, the answer has status 200,
    400, 405 or 500; with 400 or 405 the world is exactly the one before
    (no driver call, nothing written), and with 200 or 500 exactly one
    driver call was made. *)
Theorem one_store_call_per_request
    (tpl : Template) (e : Endpoint) (r : Request) (w : World) :
  let out := serve tpl e r w in
  ((StatusCode out.1 = StatusBadRequest \/
    StatusCode out.1 = StatusMethodNotAllowed) /\ out.2 = w) \/
  ((StatusCode out.1 = StatusOK \/
    StatusCode out.1 = StatusInternalServerError) /\
   (exists c, calls out.2 = calls w ++ [c]) /\
   reachable out.2 = reachable w).
Proof. apply one_call_or_none. Qed.

(** ** Sequences of requests *)






(** ** The listing *)

(** X5: a GET of / makes one [Find] and writes nothing: the collection
    and the generator are as before.  When the list read does not fail
    (the server answers [Find], every document decodes and the cursor
    reports no error), the page is the template run on the whole
    collection in its stored order (an empty collection included), with
    status 200; when it fails at any of these points, the answer is 500
    "Failed to get books" and holds no page.  With a server that
    answers and a cursor that meets no fault the read does not fail. *)
Theorem index_lists_collection (tpl : Template) (r : Request) (w : World) :
  Method r = MethodGet ->
  (is_ok (getBooks w).1 = true ->
   (handleIndex tpl r w).1 =
     {| StatusCode := StatusOK; Body := tpl (books w) |}) /\
  (is_ok (getBooks w).1 = false ->
   (handleIndex tpl r w).1 =
     httpError "Failed to get books" StatusInternalServerError) /\
  (reachable w = true -> cursorFault w = None ->
   is_ok (getBooks w).1 = true) /\
  books (handleIndex tpl r w).2 = books w /\
  generator (handleIndex tpl r w).2 = generator w /\
  calls (handleIndex tpl r w).2 = calls w ++ [CallFind].
Proof.
  intros Hm. unfold handleIndex. case_decide; [done|]. run.
  pose proof (getBooks_run w) as (Hc & Hb & _ & Hg & _).
  pose proof (getBooks_ok w) as Hok.
  pose proof (getBooks_healthy w) as Hhealthy.
  destruct (getBooks w) as [[listed|err] w']; simpl in *.
  - rewrite (Hok listed eq_refl). split_and!; done.
  - split_and!; try done. intros Hup Hfault.
    by specialize (Hhealthy Hup Hfault).
Qed.

Lemma index_lists_collection_witness :
  ((handleIndex (index_html showCost) getIndex serverUp).1 =
     {| StatusCode := StatusOK; Body := index_html showCost shelf |}) /\
  ((handleIndex (index_html showCost) getIndex cursorFails).1 =
     httpError "Failed to get books" StatusInternalServerError) /\
  ((handleIndex (index_html showCost) getIndex undecodable).1 =
     httpError "Failed to get books" StatusInternalServerError) /\
  is_ok (getBooks serverUp).1 = true.
Proof.
  destruct (index_lists_collection (index_html showCost) getIndex serverUp
              eq_refl) as (Hok & _ & Hhealthy & _).
  destruct (index_lists_collection (index_html showCost) getIndex cursorFails
              eq_refl) as (_ & Hcursor & _).
  destruct (index_lists_collection (index_html showCost) getIndex undecodable
              eq_refl) as (_ & Hdecode & _).
  split_and!.
  - apply Hok. vm_compute. reflexivity.
  - apply Hcursor. vm_compute. reflexivity.
  - apply Hdecode. vm_compute. reflexivity.
  - apply Hhealthy; reflexivity.
Defined.

(** ** Delete *)

Lemma fragments_differ :
  Fprintf deletedFragment ≠ Fprintf notFoundFragment.
Proof. intros H. apply (f_equal Body) in H. vm_compute in H. discriminate H. Qed.

(** X7: the acknowledgement of /delete tells what happened.  "deleted"
    is only written when the id field was a well-formed id of a stored
    record and that record, the first with this id, is gone, the others
    staying in place; "not found" is only written when the id was
    well-formed, no record had it, and the collection is unchanged. *)
Theorem delete_answer_truthful (r : Request) (w : World) :
  ((handleDelete r w).1 = Fprintf deletedFragment ->
   exists oid l1 b l2,
     primitive.ObjectIDFromHex (FormValue r "id") = Ok oid /\
     books w = l1 ++ b :: l2 /\ ID b = oid /\ (oid ∉ mongo.ids l1) /\
     books (handleDelete r w).2 = l1 ++ l2) /\
  ((handleDelete r w).1 = Fprintf notFoundFragment ->
   exists oid,
     primitive.ObjectIDFromHex (FormValue r "id") = Ok oid /\
     (oid ∉ mongo.ids (books w)) /\
     books (handleDelete r w).2 = books w).
Proof.
  unfold handleDelete.
  case_decide; [done|]. case_decide; [done|].
  destruct (primitive.ObjectIDFromHex (FormValue r "id")) as [oid|err]; [|done].
  unfold mongo.DeleteOne. run.
  destruct (reachable w); run; [|done].
  destruct (decide (oid ∈ mongo.ids (books w))) as [Hin|Hn].
  - destruct (deleteFirst_present oid (books w) Hin)
      as (l1 & b & l2 & Hl & Hb & Hn1 & ->). simpl. split.
    + intros _. by exists oid, l1, b, l2.
    + intros Heq. by apply fragments_differ in Heq.
  - rewrite (deleteFirst_absent oid (books w) Hn). simpl. split.
    + intros Heq. symmetry in Heq. by apply fragments_differ in Heq.
    + intros _. by exists oid.
Qed.

Lemma delete_answer_truthful_witness :
  (exists oid l1 b l2,
     primitive.ObjectIDFromHex (FormValue deleteDune "id") = Ok oid /\
     books serverUp = l1 ++ b :: l2 /\ ID b = oid /\ (oid ∉ mongo.ids l1) /\
     books (handleDelete deleteDune serverUp).2 = l1 ++ l2) /\
  (exists oid,
     primitive.ObjectIDFromHex (FormValue deleteAbsent "id") = Ok oid /\
     (oid ∉ mongo.ids (books serverUp)) /\
     books (handleDelete deleteAbsent serverUp).2 = books serverUp).
Proof.
  split.
  - apply (delete_answer_truthful deleteDune serverUp).
    vm_compute. reflexivity.
  - apply (delete_answer_truthful deleteAbsent serverUp).
    vm_compute. reflexivity.
Defined.

(** ** Create, composed *)

(** A create whose insert did not fail: the record appended. *)
Lemma handleSubmit_added (r : Request) (w : World) (bookCost : float64) :
  Method r = MethodPost ->
  strconv.ParseFloat (FormValue r "cost") = Ok bookCost ->
  StatusCode (handleSubmit r w).1 ≠ StatusInternalServerError ->
  reachable (handleSubmit r w).2 = true /\
  exists id : ObjectID,
    (id ∉ mongo.ids (books w)) /\
    books (handleSubmit r w).2 =
      books w ++ [{| ID := id; Name := FormValue r "name";
                     Author := FormValue r "author"; Cost := bookCost |}].
Proof.
  intros Hm Hc. rewrite (handleSubmit_valid r w bookCost Hm Hc).
  pose proof (NewObjectID_frame w) as (Hb & Hr & _ & _).
  destruct (NewObjectID w) as [id0 w1]. simpl in Hb, Hr.
  match goal with |- context [mongo.InsertOne ?d w1] =>
    pose proof (InsertOne_cases d w1) as Hins;
    destruct (mongo.InsertOne d w1) as [[id|e] w2] end; simpl in *.
  - intros _. destruct Hins as (_ & Hr2 & Hup & Hfresh & _ & Hbooks).
    split; [congruence|]. exists id. by rewrite <- Hb.
  - intros H. by destruct H.
Qed.

(** X8: create is not idempotent.  The same form posted twice to
    /submit, both inserts succeeding, leaves two records at the end of
    the collection that agree on name, author and cost and differ in
    their id. *)
Theorem create_twice_two_records (r : Request) (w : World) (bookCost : float64) :
  Method r = MethodPost ->
  strconv.ParseFloat (FormValue r "cost") = Ok bookCost ->
  StatusCode (handleSubmit r w).1 ≠ StatusInternalServerError ->
  StatusCode (handleSubmit r (handleSubmit r w).2).1 ≠ StatusInternalServerError ->
  exists id1 id2 : ObjectID,
    id1 ≠ id2 /\
    books (handleSubmit r (handleSubmit r w).2).2 =
      books w ++
      [{| ID := id1; Name := FormValue r "name";
          Author := FormValue r "author"; Cost := bookCost |};
       {| ID := id2; Name := FormValue r "name";
          Author := FormValue r "author"; Cost := bookCost |}].
Proof.
  intros Hm Hc H1 H2.
  destruct (handleSubmit_added r w bookCost Hm Hc H1) as (_ & id1 & Hf1 & Hb1).
  destruct (handleSubmit_added r _ bookCost Hm Hc H2) as (_ & id2 & Hf2 & Hb2).
  exists id1, id2. rewrite Hb2, Hb1, <- app_assoc. split; [|done].
  intros ->. apply Hf2. rewrite Hb1. unfold mongo.ids. rewrite fmap_app.
  apply elem_of_app. right. simpl. apply list_elem_of_singleton. done.
Qed.

Lemma create_twice_two_records_witness :
  exists id1 id2 : ObjectID,
    id1 ≠ id2 /\
    books (handleSubmit submitPersuasion
             (handleSubmit submitPersuasion serverUp).2).2 =
      shelf ++
      [{| ID := id1; Name := "Persuasion"; Author := "Austen";
          Cost := twelveFifty |};
       {| ID := id2; Name := "Persuasion"; Author := "Austen";
          Cost := twelveFifty |}].
Proof.
  apply (create_twice_two_records submitPersuasion serverUp twelveFifty).
  - reflexivity.
  - vm_compute. reflexivity.
  - vm_compute. discriminate.
  - vm_compute. discriminate.
Defined.

Lemma deleteFirst_last (oid : ObjectID) (l : list Book) (b : Book) :
  oid ∉ mongo.ids l -> ID b = oid ->
  mongo.deleteFirst oid (l ++ [b]) = (l, 1).
Proof.
  intros Hn Hb. induction l as [|x l IH]; simpl.
  - by rewrite bool_decide_eq_true_2.
  - apply not_elem_of_cons in Hn as [Hx Hl].
    rewrite bool_decide_eq_false_2 by done. by rewrite (IH Hl).
Qed.

(** X9: create then delete gives back the collection.  After a /submit
    whose insert succeeded, a POST to /delete carrying the id of the
    record just stored, served in any later state of the environment on
    the collection the create left and whose [DeleteOne] does not fail,
    reports "deleted" and leaves the collection exactly as it was before
    the create. *)
Theorem create_then_delete_restores
    (r rd : Request) (w w1 : World) (bookCost : float64) (b : Book) :
  Method r = MethodPost ->
  strconv.ParseFloat (FormValue r "cost") = Ok bookCost ->
  StatusCode (handleSubmit r w).1 ≠ StatusInternalServerError ->
  last (books (handleSubmit r w).2) = Some b ->
  books w1 = books (handleSubmit r w).2 ->
  Method rd = MethodPost ->
  primitive.ObjectIDFromHex (FormValue rd "id") = Ok (ID b) ->
  is_ok (mongo.DeleteOne (ID b) w1).1 = true ->
  (handleDelete rd w1).1 = Fprintf deletedFragment /\
  books (handleDelete rd w1).2 = books w.
Proof.
  intros Hm Hc Hok Hlast Hcoll Hmd Hid Hdel.
  destruct (handleSubmit_added r w bookCost Hm Hc Hok) as (_ & id & Hf & Hb).
  rewrite Hb, last_snoc in Hlast. injection Hlast as <-. simpl in Hid, Hdel.
  rewrite DeleteOne_ok in Hdel.
  rewrite (handleDelete_valid rd w1 id Hmd Hid).
  unfold mongo.DeleteOne. run. rewrite Hdel. run. rewrite Hcoll, Hb.
  by rewrite (deleteFirst_last id (books w)) by done.
Qed.

Lemma create_then_delete_restores_witness :
  (handleDelete deletePersuasion (laterAfterSubmit submitPersuasion serverUp)).1 =
    Fprintf deletedFragment /\
  books (handleDelete deletePersuasion
           (laterAfterSubmit submitPersuasion serverUp)).2 = books serverUp.
Proof.
  apply (create_then_delete_restores submitPersuasion deletePersuasion serverUp
           (laterAfterSubmit submitPersuasion serverUp) twelveFifty persuasion).
  - reflexivity.
  - vm_compute. reflexivity.
  - vm_compute. discriminate.
  - vm_compute. reflexivity.
  - vm_compute. reflexivity.
  - reflexivity.
  - vm_compute. reflexivity.
  - vm_compute. reflexivity.
Defined.

(** ** Update, composed *)

Lemma setFirst_idempotent (oid : ObjectID) (name author : string)
    (cost : float64) (l : list Book) :
  mongo.setFirst oid name author cost (mongo.setFirst oid name author cost l).1 =
  mongo.setFirst oid name author cost l.
Proof.
  induction l as [|b l IH]; simpl; [done|].
  case_bool_decide as Hb; simpl.
  - by rewrite bool_decide_eq_true_2.
  - destruct (mongo.setFirst oid name author cost l) as [l' n] eqn:Hs.
    simpl in *. rewrite bool_decide_eq_false_2 by done. by rewrite IH.
Qed.

(** What /modify does when its answer is 200: the update was made. *)
Lemma handleModify_done (r : Request) (w : World) :
  StatusCode (handleModify r w).1 = StatusOK ->
  exists (oid : ObjectID) (c : float64),
    primitive.ObjectIDFromHex (FormValue r "id") = Ok oid /\
    strconv.ParseFloat (FormValue r "cost") = Ok c /\
    (handleModify r w).1 = Fprintf modifiedFragment /\
    books (handleModify r w).2 =
      (mongo.setFirst oid (FormValue r "name") (FormValue r "author") c
                      (books w)).1.
Proof.
  unfold handleModify.
  case_decide; [done|]. case_decide; [done|].
  destruct (primitive.ObjectIDFromHex (FormValue r "id")) as [oid|err]; [|done].
  destruct (strconv.ParseFloat (FormValue r "cost")) as [c|err]; [|done].
  unfold mongo.UpdateOne. run.
  destruct (reachable w); run; [|done].
  destruct (mongo.setFirst oid _ _ c (books w)) as [l' n] eqn:Hs. simpl.
  intros _. exists oid, c. by rewrite Hs.
Qed.

(** X10: update is idempotent.  When a /modify request is answered 200,
    the same request served again, in any later state of the
    environment on the collection the first run left, and answered 200
    again (neither [UpdateOne] call failed), gets the same answer and
    leaves the collection as the first run left it. *)
Theorem modify_idempotent (r : Request) (w w1 : World) :
  StatusCode (handleModify r w).1 = StatusOK ->
  books w1 = books (handleModify r w).2 ->
  StatusCode (handleModify r w1).1 = StatusOK ->
  (handleModify r w1).1 = (handleModify r w).1 /\
  books (handleModify r w1).2 = books w1.
Proof.
  intros H1 Hcoll H2.
  destruct (handleModify_done r w H1) as (oid & c & Hid & Hc & Hr1 & Hb1).
  destruct (handleModify_done r w1 H2) as (oid' & c' & Hid' & Hc' & Hr2 & Hb2).
  rewrite Hid in Hid'. rewrite Hc in Hc'. injection Hid' as <-. injection Hc' as <-.
  split; [congruence|].
  rewrite Hb2, Hcoll, Hb1. by rewrite setFirst_idempotent.
Qed.

Lemma modify_idempotent_witness :
  (handleModify modifyDune (laterAfterModify modifyDune serverUp)).1 =
    (handleModify modifyDune serverUp).1 /\
  books (handleModify modifyDune (laterAfterModify modifyDune serverUp)).2 =
    books (laterAfterModify modifyDune serverUp).
Proof.
  apply (modify_idempotent modifyDune serverUp
           (laterAfterModify modifyDune serverUp)).
  - reflexivity.
  - reflexivity.
  - reflexivity.
Defined.

(** ** Required and optional fields *)

Lemma FormValue_missing (r : Request) (key : string) :
  Form r !! key = None \/ Form r !! key = Some [] -> FormValue r key = "".
Proof. unfold FormValue. by intros [-> | ->]. Qed.

Lemma ParseFloat_empty : strconv.ParseFloat "" = Err strconv.ErrSyntax.
Proof. vm_compute. reflexivity. Qed.

(** X11: of the form fields only the cost (and the id) is required.  A
    POST to /submit or /modify whose form has no cost value is answered
    400 with the world untouched; a POST to /submit without name and
    author fields is accepted, and the record stored has the empty
    string for both. *)
Theorem cost_required_name_optional (r : Request) (w : World) :
  Method r = MethodPost ->
  (Form r !! "cost" = None \/ Form r !! "cost" = Some [] ->
   handleSubmit r w = (httpError "Invalid cost" StatusBadRequest, w) /\
   StatusCode (handleModify r w).1 = StatusBadRequest /\
   (handleModify r w).2 = w) /\
  (forall bookCost : float64,
     Form r !! "name" = None -> Form r !! "author" = None ->
     strconv.ParseFloat (FormValue r "cost") = Ok bookCost ->
     StatusCode (handleSubmit r w).1 ≠ StatusInternalServerError ->
     exists id : ObjectID,
       books (handleSubmit r w).2 =
         books w ++ [{| ID := id; Name := ""; Author := ""; Cost := bookCost |}]).
Proof.
  intros Hm. split.
  - intros Hcost. apply FormValue_missing in Hcost.
    unfold handleSubmit, handleModify. rewrite Hcost, ParseFloat_empty.
    repeat case_decide; try done.
    by destruct (primitive.ObjectIDFromHex (FormValue r "id")).
  - intros bookCost Hn Ha Hc Hok.
    destruct (handleSubmit_added r w bookCost Hm Hc Hok) as (_ & id & _ & Hb).
    exists id. rewrite Hb.
    by rewrite (FormValue_missing r "name"), (FormValue_missing r "author")
      by (by left).
Qed.

Lemma cost_required_name_optional_witness :
  (handleSubmit submitNoCost serverUp =
     (httpError "Invalid cost" StatusBadRequest, serverUp) /\
   StatusCode (handleModify submitNoCost serverUp).1 = StatusBadRequest /\
   (handleModify submitNoCost serverUp).2 = serverUp) /\
  (exists id : ObjectID,
     books (handleSubmit submitOnlyCost serverUp).2 =
       shelf ++ [{| ID := id; Name := ""; Author := ""; Cost := twelveFifty |}]).
Proof.
  split.
  - destruct (cost_required_name_optional submitNoCost serverUp eq_refl) as [H _].
    apply H. left. vm_compute. reflexivity.
  - destruct (cost_required_name_optional submitOnlyCost serverUp eq_refl) as [_ H].
    apply (H twelveFifty).
    + vm_compute. reflexivity.
    + vm_compute. reflexivity.
    + vm_compute. reflexivity.
    + vm_compute. discriminate.
Defined.

(** ** ObjectIDs in hexadecimal *)

Lemma fromHexChar_range (c a : Z) :
  primitive.fromHexChar c = Some a -> 0 <= a < 16.
Proof.
  unfold primitive.fromHexChar.
  repeat (case_match; [intros [= <-];
    repeat match goal with
           | H : _ && _ = true |- _ => apply andb_prop in H as [? ?]
           | H : (_ <=? _) = true |- _ => apply Z.leb_le in H
           end; vm_compute ord in *; lia |]).
  done.
Qed.

Lemma nibbles_byte (a b : Z) :
  0 <= a < 16 -> 0 <= b < 16 -> isByte (Z.lor (Z.shiftl a 4) b).
Proof.
  intros Ha Hb. unfold isByte.
  assert (forallb (fun x => forallb (fun y =>
            (0 <=? Z.lor (Z.shiftl x 4) y) && (Z.lor (Z.shiftl x 4) y <? 256))
            (seqZ 0 16)) (seqZ 0 16) = true) as Hall by (vm_compute; reflexivity).
  rewrite forallb_forall in Hall.
  assert (In a (seqZ 0 16)) as Hina by (apply list_elem_of_In, elem_of_seqZ; lia).
  specialize (Hall a Hina). rewrite forallb_forall in Hall.
  assert (In b (seqZ 0 16)) as Hinb by (apply list_elem_of_In, elem_of_seqZ; lia).
  specialize (Hall b Hinb). apply andb_prop in Hall as [H1 H2].
  apply Z.leb_le in H1. apply Z.ltb_lt in H2. lia.
Qed.

Lemma hexDecode_inv (l src : list Z) :
  primitive.hexDecode src = Some l ->
  Forall isHexByte src /\ length src = (2 * length l)%nat /\ Forall isByte l.
Proof.
  revert src. induction l as [|x l IH]; intros src H.
  - destruct src as [|p [|q src]]; simpl in H; try done.
    destruct (primitive.fromHexChar p), (primitive.fromHexChar q),
      (primitive.hexDecode src); done.
  - destruct src as [|p [|q src]]; simpl in H; try done.
    destruct (primitive.fromHexChar p) as [a|] eqn:Hp; [|done].
    destruct (primitive.fromHexChar q) as [b|] eqn:Hq; [|done].
    destruct (primitive.hexDecode src) as [rest|] eqn:Hrest; [|done].
    injection H as <- <-.
    destruct (IH src Hrest) as (Hhex & Hlen & Hbytes).
    split_and!.
    + repeat constructor; unfold isHexByte; by rewrite ?Hp, ?Hq.
    + simpl. lia.
    + constructor; [|done].
      apply nibbles_byte; by eapply fromHexChar_range.
Qed.

Lemma hexDecode_total (n : nat) (src : list Z) :
  length src = (2 * n)%nat -> Forall isHexByte src ->
  is_Some (primitive.hexDecode src).
Proof.
  revert src. induction n as [|n IH]; intros src Hlen Hhex.
  - destruct src; [by eexists|done].
  - destruct src as [|p [|q src]]; simpl in Hlen; try lia.
    apply Forall_cons in Hhex as [[a Hp] Hhex].
    apply Forall_cons in Hhex as [[b Hq] Hhex].
    destruct (IH src) as [rest Hrest]; [lia|done|].
    simpl. rewrite Hp, Hq, Hrest. by eexists.
Qed.

Lemma ObjectIDFromHex_spec (s : string) :
  (is_ok (primitive.ObjectIDFromHex s) = true <->
   length (bytes s) = 24%nat /\ Forall isHexByte (bytes s)) /\
  (forall oid : ObjectID,
     primitive.ObjectIDFromHex s = Ok oid ->
     length oid = 12%nat /\ Forall isByte oid).
Proof.
  unfold primitive.ObjectIDFromHex.
  destruct (Z.of_nat (length (bytes s)) =? 24) eqn:Hlen; simpl.
  - apply Z.eqb_eq in Hlen.
    assert (length (bytes s) = 24%nat) as Hlen' by lia.
    destruct (primitive.hexDecode (bytes s)) as [l|] eqn:Hdec; simpl.
    + destruct (hexDecode_inv l (bytes s) Hdec) as (Hhex & Hl & Hbytes).
      split; [done|]. intros oid [= <-]. split; [lia|done].
    + split; [|done]. split; [done|]. intros [_ Hhex].
      destruct (hexDecode_total 12 (bytes s) Hlen' Hhex) as [l Hl].
      congruence.
  - apply Z.eqb_neq in Hlen. split; [|done].
    split; [done|]. intros [Hl _]. lia.
Qed.

(** X12: [ObjectIDFromHex] accepts exactly the strings of 24 hexadecimal
    digits, in either case; what it returns has 12 bytes. *)
Theorem ObjectIDFromHex_accepts (s : string) :
  (is_ok (primitive.ObjectIDFromHex s) = true <->
   length (bytes s) = 24%nat /\ Forall isHexByte (bytes s)) /\
  (forall oid : ObjectID,
     primitive.ObjectIDFromHex s = Ok oid ->
     length oid = 12%nat /\ Forall isByte oid).
Proof. apply ObjectIDFromHex_spec. Qed.

(** X6: a POST to /delete or /modify whose id field is not made of
    exactly 24 hexadecimal digits (the empty field included) is answered
    400 "Invalid book ID" with the world untouched: no driver call is
    attempted. *)
Theorem malformed_id_rejected (r : Request) (w : World) :
  Method r = MethodPost ->
  ~ (length (bytes (FormValue r "id")) = 24%nat /\
     Forall isHexByte (bytes (FormValue r "id"))) ->
  handleDelete r w = (httpError "Invalid book ID" StatusBadRequest, w) /\
  handleModify r w = (httpError "Invalid book ID" StatusBadRequest, w).
Proof.
  intros Hm Hbad.
  destruct (ObjectIDFromHex_spec (FormValue r "id")) as [[Hok _] _].
  unfold handleDelete, handleModify. repeat case_decide; try done.
  destruct (primitive.ObjectIDFromHex (FormValue r "id")); [|done].
  by destruct Hbad, Hok.
Qed.

Lemma malformed_id_rejected_witness :
  handleDelete deleteMalformed serverUp =
    (httpError "Invalid book ID" StatusBadRequest, serverUp) /\
  handleModify deleteMalformed serverUp =
    (httpError "Invalid book ID" StatusBadRequest, serverUp).
Proof.
  apply (malformed_id_rejected deleteMalformed serverUp).
  - reflexivity.
  - apply (bool_decide_unpack _). vm_compute. exact I.
Defined.

Lemma ObjectIDFromHex_accepts_witness :
  is_ok (primitive.ObjectIDFromHex absentHex) = true /\
  (length absentID = 12%nat /\ Forall isByte absentID).
Proof.
  destruct (ObjectIDFromHex_accepts absentHex) as [[_ H1] H2].
  split.
  - apply H1. split; [reflexivity|].
    apply (bool_decide_unpack _). vm_compute. exact I.
  - apply H2. vm_compute. reflexivity.
Defined.

Lemma byte_split (b : Z) :
  isByte b ->
  primitive.fromHexChar (Z.of_N (N_of_ascii (template.hexDigit (Z.shiftr b 4)))) =
    Some (Z.shiftr b 4) /\
  primitive.fromHexChar (Z.of_N (N_of_ascii (template.hexDigit (Z.land b 15)))) =
    Some (Z.land b 15) /\
  Z.lor (Z.shiftl (Z.shiftr b 4) 4) (Z.land b 15) = b.
Proof.
  intros Hb.
  assert (forallb (fun x =>
     bool_decide
       (primitive.fromHexChar
          (Z.of_N (N_of_ascii (template.hexDigit (Z.shiftr x 4)))) =
          Some (Z.shiftr x 4) /\
        primitive.fromHexChar
          (Z.of_N (N_of_ascii (template.hexDigit (Z.land x 15)))) =
          Some (Z.land x 15) /\
        Z.lor (Z.shiftl (Z.shiftr x 4) 4) (Z.land x 15) = x))
     (seqZ 0 256) = true) as Hall by (vm_compute; reflexivity).
  rewrite forallb_forall in Hall.
  assert (In b (seqZ 0 256)) as Hin
    by (apply list_elem_of_In, elem_of_seqZ; unfold isByte in Hb; lia).
  specialize (Hall b Hin). by apply bool_decide_eq_true in Hall.
Qed.

Lemma hexDecode_Hex (id : list Z) :
  Forall isByte id ->
  primitive.hexDecode (bytes (template.Hex id)) = Some id /\
  length (bytes (template.Hex id)) = (2 * length id)%nat.
Proof.
  induction 1 as [|b id Hb _ [IH IHlen]]; [done|].
  destruct (byte_split b Hb) as (Hhi & Hlo & Hjoin).
  unfold bytes in *. simpl. rewrite Hhi, Hlo.
  unfold fmap in IH. rewrite IH, Hjoin. split; [done|].
  unfold fmap in IHlen. rewrite IHlen. lia.
Qed.

(** X13: decoding undoes [Hex].  For an id of 12 bytes,
    [ObjectIDFromHex (Hex id)] is [id]; so a POST to /delete whose id
    field is the hexadecimal form of the id of a stored record, on a
    store that answers, reports "deleted" and removes the first record
    with that id, the others staying in place. *)
Theorem hex_id_round_trip (r : Request) (w : World) (b : Book) :
  length (ID b) = 12%nat ->
  Forall isByte (ID b) ->
  primitive.ObjectIDFromHex (template.Hex (ID b)) = Ok (ID b) /\
  (Method r = MethodPost ->
   FormValue r "id" = template.Hex (ID b) ->
   b ∈ books w ->
   reachable w = true ->
   (handleDelete r w).1 = Fprintf deletedFragment /\
   exists l1 b' l2,
     books w = l1 ++ b' :: l2 /\ ID b' = ID b /\ (ID b ∉ mongo.ids l1) /\
     books (handleDelete r w).2 = l1 ++ l2).
Proof.
  intros Hlen Hbytes.
  assert (primitive.ObjectIDFromHex (template.Hex (ID b)) = Ok (ID b)) as Hdec.
  { unfold primitive.ObjectIDFromHex.
    destruct (hexDecode_Hex (ID b) Hbytes) as [-> ->].
    rewrite Hlen. reflexivity. }
  split; [done|]. intros Hm Hid Hin Hup. rewrite <- Hid in Hdec.
  assert (ID b ∈ mongo.ids (books w)) as Hin'
    by (unfold mongo.ids; by apply list_elem_of_fmap_2).
  destruct (delete_present r w (ID b) Hm Hdec Hin' Hup) as (? & _ & ?). done.
Qed.

Lemma hex_id_round_trip_witness :
  primitive.ObjectIDFromHex (template.Hex duneID) = Ok duneID /\
  (handleDelete deleteDune serverUp).1 = Fprintf deletedFragment /\
  exists l1 b' l2,
    books serverUp = l1 ++ b' :: l2 /\ ID b' = duneID /\
    (duneID ∉ mongo.ids l1) /\
    books (handleDelete deleteDune serverUp).2 = l1 ++ l2.
Proof.
  assert (length duneID = 12%nat) as Hlen by reflexivity.
  assert (Forall isByte duneID) as Hbytes
    by (apply (bool_decide_unpack _); vm_compute; exact I).
  destruct (hex_id_round_trip deleteDune serverUp
    {| ID := duneID; Name := "Dune"; Author := "Herbert"; Cost := twelveFifty |}
    Hlen Hbytes) as [H1 H2].
  split; [exact H1|]. apply H2.
  - reflexivity.
  - vm_compute. reflexivity.
  - simpl. constructor.
  - reflexivity.
Defined.

(** ** The ids a create draws *)

Lemma bigEndianUint32_zero (v : Z) :
  primitive.bigEndianUint32 v = [0; 0; 0; 0] -> v mod 2 ^ 32 = 0.
Proof.
  unfold primitive.bigEndianUint32.
  assert (0 <= v mod 2 ^ 32 < 2 ^ 32) as Hv by (apply Z.mod_pos_bound; lia).
  generalize dependent (v mod 2 ^ 32). intros u Hu.
  rewrite !Z.shiftr_div_pow2 by lia. intros [= H3 H2 H1 H0].
  change (2 ^ 24) with 16777216 in *. change (2 ^ 16) with 65536 in *.
  change (2 ^ 8) with 256 in *. change (2 ^ 32) with 4294967296 in *.
  Z.to_euclidean_division_equations. lia.
Qed.

Lemma NewObjectID_nonzero (g : primitive.Generator) :
  primitive.unixTime g mod 2 ^ 32 ≠ 0 ->
  primitive.IsZero (primitive.NewObjectID g).1 = false.
Proof.
  intros Ht. unfold primitive.IsZero. apply bool_decide_eq_false_2.
  unfold primitive.NewObjectID. simpl. intros Heq.
  apply Ht, bigEndianUint32_zero.
  unfold primitive.bigEndianUint32 in *. simpl in Heq.
  by injection Heq as -> -> -> -> _.
Qed.

Lemma NewObjectID_bytes (g : primitive.Generator) :
  wfGenerator g ->
  length (primitive.NewObjectID g).1 = 12%nat /\
  Forall isByte (primitive.NewObjectID g).1.
Proof.
  intros [Hlen Hbytes]. unfold primitive.NewObjectID. simpl.
  rewrite take_ge by lia. split.
  - simpl. rewrite length_app, Hlen. reflexivity.
  - repeat (apply Forall_cons; split;
              [unfold isByte; apply Z.mod_pos_bound; lia|]).
    apply Forall_app. split; [done|].
    unfold primitive.putUint24.
    repeat (apply Forall_cons; split;
              [unfold isByte; apply Z.mod_pos_bound; lia|]).
    constructor.
Qed.

(** X14: while the clock is not a multiple of 2^32 seconds, the id the
    create handler draws is never the zero ObjectID, so the [omitempty]
    tag of the [_id] field never drops it: a /submit whose insert
    succeeds stores its record under exactly the id drawn, the
    generator having advanced by that one draw; and with five process
    bytes the id has 12 bytes. *)
Theorem submit_stores_drawn_id (r : Request) (w : World) (bookCost : float64) :
  primitive.unixTime (generator w) mod 2 ^ 32 ≠ 0 ->
  Method r = MethodPost ->
  strconv.ParseFloat (FormValue r "cost") = Ok bookCost ->
  StatusCode (handleSubmit r w).1 ≠ StatusInternalServerError ->
  let drawn := (primitive.NewObjectID (generator w)).1 in
  primitive.IsZero drawn = false /\
  books (handleSubmit r w).2 =
    books w ++ [{| ID := drawn; Name := FormValue r "name";
                   Author := FormValue r "author"; Cost := bookCost |}] /\
  generator (handleSubmit r w).2 = (primitive.NewObjectID (generator w)).2 /\
  (wfGenerator (generator w) -> length drawn = 12%nat /\ Forall isByte drawn).
Proof.
  intros Ht Hm Hc. pose proof (NewObjectID_nonzero (generator w) Ht) as Hz.
  rewrite (handleSubmit_valid r w bookCost Hm Hc).
  unfold NewObjectID, mongo.InsertOne.
  destruct (primitive.NewObjectID (generator w)) as [id g] eqn:Hdraw.
  simpl in Hz |- *. run. rewrite Hz. run.
  destruct (reachable w); run; [|intros Hno; by destruct Hno].
  case_bool_decide; simpl; [intros Hno; by destruct Hno|].
  intros _. split_and!; try done.
  intros Hwf. pose proof (NewObjectID_bytes (generator w) Hwf) as Hb.
  by rewrite Hdraw in Hb.
Qed.

Lemma submit_stores_drawn_id_witness :
  primitive.IsZero persuasionID = false /\
  books (handleSubmit submitPersuasion serverUp).2 = shelf ++ [persuasion] /\
  generator (handleSubmit submitPersuasion serverUp).2 =
    (primitive.NewObjectID sampleGenerator).2 /\
  (wfGenerator sampleGenerator ->
   length persuasionID = 12%nat /\ Forall isByte persuasionID).
Proof.
  apply (submit_stores_drawn_id submitPersuasion serverUp twelveFifty).
  - vm_compute. discriminate.
  - reflexivity.
  - vm_compute. reflexivity.
  - vm_compute. discriminate.
Defined.

(** X15: two draws in a row never give the same id, whatever the clock
    shows at the second one: the counter bytes differ. *)
Theorem consecutive_ids_differ (g : primitive.Generator) (later : Z) :
  let g1 := (primitive.NewObjectID g).2 in
  (primitive.NewObjectID g).1 ≠
  (primitive.NewObjectID
     {| primitive.unixTime := later;
        primitive.processUnique := primitive.processUnique g1;
        primitive.objectIDCounter := primitive.objectIDCounter g1 |}).1.
Proof.
  unfold primitive.NewObjectID.
  cbn [fst snd primitive.processUnique primitive.objectIDCounter
       primitive.unixTime].
  intros Heq. apply (f_equal last) in Heq.
  unfold primitive.putUint24 in Heq.
  rewrite !app_assoc in Heq.
  rewrite !(last_app _ [_; _; _]) in Heq. simpl in Heq.
  injection Heq as Heq.
  change (2 ^ 32) with 4294967296 in *.
  Z.to_euclidean_division_equations. lia.
Qed.

Lemma consecutive_ids_differ_witness :
  persuasionID ≠
  (primitive.NewObjectID
     {| primitive.unixTime := 1700000060;
        primitive.processUnique := [17; 34; 51; 68; 85];
        primitive.objectIDCounter := 256 |}).1.
Proof. apply (consecutive_ids_differ sampleGenerator 1700000060). Defined.

(** ** What a cost can be spelled with *)

#[global] Arguments ord : simpl never.

Ltac floatByte_by H :=
  unfold floatByte; rewrite ?H; rewrite ?orb_true_r; reflexivity.

Lemma readMantissa_consumes (s : list Z) (base : Z) (m m' : strconv.mant)
    (rest : list Z) :
  strconv.readMantissa base m s = (m', rest) ->
  exists k, s = k ++ rest /\ Forall (fun c => floatByte c = true) k.
Proof.
  revert m. induction s as [|c s IH]; intros m H; simpl in H.
  - injection H as <- <-. by exists [].
  - assert (forall m0, floatByte c = true ->
              strconv.readMantissa base m0 s = (m', rest) ->
              exists k, c :: s = k ++ rest /\
                        Forall (fun c => floatByte c = true) k) as Hstep.
    { intros m0 Hc Hm0. destruct (IH m0 Hm0) as (k & -> & Hk).
      exists (c :: k). split; [done|by constructor]. }
    assert (exists k, c :: s = k ++ (c :: s) /\
                      Forall (fun c => floatByte c = true) k) as Hstop
      by (by exists []).
    destruct (c =? ord "_") eqn:H_.
    { eapply Hstep; [|exact H]. floatByte_by H_. }
    destruct (c =? ord ".") eqn:Hdot.
    { destruct (strconv.sawdot m).
      - injection H as <- <-. exact Hstop.
      - eapply Hstep; [|exact H]. floatByte_by Hdot. }
    destruct (strconv.isDigit c) eqn:Hdig.
    { destruct ((c =? ord "0") && (strconv.nd m =? 0));
        (eapply Hstep; [|exact H]); floatByte_by Hdig. }
    destruct ((base =? 16) && strconv.isHexLetter c) eqn:Hhex.
    { apply andb_prop in Hhex as [_ Hhex].
      eapply Hstep; [|exact H]. floatByte_by Hhex. }
    injection H as <- <-. exact Hstop.
Qed.

Lemma readExpDigits_consumes (s : list Z) (e e' : Z) (us us' : bool)
    (rest : list Z) :
  strconv.readExpDigits e us s = (e', us', rest) ->
  exists k, s = k ++ rest /\ Forall (fun c => floatByte c = true) k.
Proof.
  revert e us. induction s as [|c s IH]; intros e us H; simpl in H.
  - injection H as <- <- <-. by exists [].
  - destruct (c =? ord "_") eqn:H_.
    { destruct (IH _ _ H) as (k & -> & Hk). exists (c :: k).
      split; [done|]. constructor; [floatByte_by H_|done]. }
    destruct (strconv.isDigit c) eqn:Hdig.
    { destruct (IH _ _ H) as (k & -> & Hk). exists (c :: k).
      split; [done|]. constructor; [floatByte_by Hdig|done]. }
    injection H as <- <- <-. by exists [].
Qed.

Lemma commonPrefix_consumes (s prefix : list Z) :
  Forall (fun q => floatByte q = true /\ floatByte (q - 32) = true) prefix ->
  0 <= strconv.commonPrefixLenIgnoreCase s prefix <= Z.of_nat (length s) /\
  Forall (fun c => floatByte c = true)
         (take (Z.to_nat (strconv.commonPrefixLenIgnoreCase s prefix)) s).
Proof.
  intros Hp. revert s. induction Hp as [|q prefix [Hq Hq'] _ IH]; intros s.
  - destruct s; simpl; (split; [lia|constructor]).
  - destruct s as [|c s]; simpl; [split; [lia|constructor]|].
    destruct (IH s) as [Hlen Hall].
    destruct (_ =? q) eqn:Heq; [|split; [lia|constructor]].
    apply Z.eqb_eq in Heq.
    split; [lia|].
    replace (Z.to_nat (1 + strconv.commonPrefixLenIgnoreCase s prefix))
      with (S (Z.to_nat (strconv.commonPrefixLenIgnoreCase s prefix))) by lia.
    simpl. constructor; [|done].
    destruct ((ord "A" <=? c) && (c <=? ord "Z")).
    + by replace c with (q - 32) by lia.
    + by subst q.
Qed.

Lemma special_letters :
  Forall (fun q => floatByte q = true /\ floatByte (q - 32) = true)
         (bytes "infinity") /\
  Forall (fun q => floatByte q = true /\ floatByte (q - 32) = true)
         (bytes "nan").
Proof. split; apply (bool_decide_unpack _); vm_compute; exact I. Qed.

Lemma special_inf_consumes (sign : bool) (nsign : Z) (s : list Z)
    (val : float64) (n : Z) :
  strconv.special_inf sign nsign s = Some (val, n) ->
  n = nsign + Z.of_nat (length s) ->
  Forall (fun c => floatByte c = true) s.
Proof.
  unfold strconv.special_inf. intros H Hn.
  destruct (commonPrefix_consumes s (bytes "infinity") (proj1 special_letters))
    as [Hlen Hall].
  set (k := strconv.commonPrefixLenIgnoreCase s (bytes "infinity")) in *.
  destruct ((3 <? k) && (k <? 8)) eqn:Hmid.
  - simpl in H. injection H as _ <-.
    apply andb_prop in Hmid as [H3 H8]. apply Z.ltb_lt in H3. lia.
  - destruct ((k =? 3) || (k =? 8)) eqn:Hk; [|done].
    injection H as _ <-.
    assert (Z.to_nat k = length s) as Hs by lia.
    rewrite Hs, take_ge in Hall by lia. done.
Qed.

Lemma special_consumes (s : list Z) (val : float64) (n : Z) :
  strconv.special s = Some (val, n) ->
  n = Z.of_nat (length s) ->
  Forall (fun c => floatByte c = true) s.
Proof.
  unfold strconv.special. destruct s as [|c s]; [done|].
  intros H Hn.
  destruct ((c =? ord "+") || (c =? ord "-")) eqn:Hsign.
  { constructor.
    - apply orb_prop in Hsign as [Hs|Hs]; floatByte_by Hs.
    - eapply special_inf_consumes; [exact H|]. simpl length in Hn. lia. }
  destruct ((c =? ord "i") || (c =? ord "I")) eqn:Hi.
  { eapply special_inf_consumes; [exact H|]. lia. }
  destruct ((c =? ord "n") || (c =? ord "N")) eqn:Hnn; [|done].
  destruct (_ =? 3) eqn:H3; [|done]. injection H as _ <-.
  apply Z.eqb_eq in H3.
  destruct (commonPrefix_consumes (c :: s) (bytes "nan") (proj2 special_letters))
    as [_ Hall].
  rewrite H3 in Hall. rewrite take_ge in Hall by lia. done.
Qed.

Lemma readFloat_consumes (s : list Z) (p : strconv.parsed) :
  strconv.readFloat s = Some p ->
  strconv.p_n p = Z.of_nat (length s) ->
  Forall (fun c => floatByte c = true) s.
Proof.
  unfold strconv.readFloat. destruct s as [|c s]; [done|].
  set (s1 := if (c =? ord "+") || (c =? ord "-") then s else c :: s).
  intros H Hn.
  assert (Forall (fun c => floatByte c = true) s1 ->
          Forall (fun c => floatByte c = true) (c :: s)) as HA.
  { subst s1. destruct ((c =? ord "+") || (c =? ord "-")) eqn:Hs; [|done].
    intros Hall. constructor; [|done].
    apply orb_prop in Hs as [Hs|Hs]; floatByte_by Hs. }
  apply HA. clear HA.
  destruct (match s1 with
            | c0 :: c1 :: (_ :: _) as s'' =>
                if (c0 =? ord "0") && (strconv.lower c1 =? ord "x")
                then (true, s'') else (false, s1)
            | _ => (false, s1)
            end) as [hex s2] eqn:Hpre.
  assert (exists pre, s1 = pre ++ s2 /\
                      Forall (fun c => floatByte c = true) pre)
    as (pre & Hs1 & Hprefix).
  { destruct s1 as [|c0 [|c1 [|c2 s'']]];
      try (injection Hpre as <- <-; by exists []).
    destruct ((c0 =? ord "0") && (strconv.lower c1 =? ord "x")) eqn:H0x;
      injection Hpre as <- <-; [|by exists []].
    exists [c0; c1]. split; [done|].
    apply andb_prop in H0x as [H0 Hx]. apply Z.eqb_eq in H0. subst c0.
    repeat constructor. floatByte_by Hx. }
  destruct (strconv.readMantissa _ _ s2) as [m s3] eqn:Hmant.
  destruct (readMantissa_consumes _ _ _ _ _ Hmant) as (k & Hs2 & Hk).
  destruct (negb (strconv.sawdigits m)); [done|].
  rewrite Hs1, Hs2. apply Forall_app. split; [done|].
  apply Forall_app. split; [done|].
  destruct s3 as [|c0 s4]; [constructor|].
  destruct (strconv.lower c0 =? _) eqn:Hexp.
  - assert (floatByte c0 = true) as Hc0.
    { apply Z.eqb_eq in Hexp. unfold floatByte, strconv.isHexLetter.
      rewrite Hexp. destruct hex; vm_compute ord; simpl;
        by rewrite ?orb_true_r. }
    constructor; [done|].
    destruct s4 as [|d s5]; [done|].
    destruct ((d =? ord "+") || (d =? ord "-")) eqn:Hd.
    + destruct s5 as [|d0 s7]; [done|].
      destruct (strconv.isDigit d0); [|done].
      destruct (strconv.readExpDigits _ _ _) as [[e us] rest] eqn:Hexpd.
      destruct (readExpDigits_consumes _ _ _ _ _ _ Hexpd) as (k' & Hk'eq & Hk').
      destruct (us && _); [done|]. injection H as <-. simpl in Hn.
      assert (rest = []) as -> by (destruct rest; [done|simpl in Hn; lia]).
      rewrite app_nil_r in Hk'eq. rewrite Hk'eq.
      constructor; [|done]. apply orb_prop in Hd as [Hd|Hd]; floatByte_by Hd.
    + destruct (strconv.isDigit d); [|done].
      destruct (strconv.readExpDigits _ _ _) as [[e us] rest] eqn:Hexpd.
      destruct (readExpDigits_consumes _ _ _ _ _ _ Hexpd) as (k' & Hk'eq & Hk').
      destruct (us && _); [done|]. injection H as <-. simpl in Hn.
      assert (rest = []) as -> by (destruct rest; [done|simpl in Hn; lia]).
      rewrite app_nil_r in Hk'eq. by rewrite Hk'eq.
  - destruct hex; [done|]. destruct (_ && _); [done|].
    injection H as <-. simpl in Hn. lia.
Qed.

(** Every byte of a string [ParseFloat] accepts is a [floatByte]. *)
Lemma ParseFloat_alphabet (s : string) (f : float64) :
  strconv.ParseFloat s = Ok f ->
  Forall (fun c => floatByte c = true) (bytes s).
Proof.
  unfold strconv.ParseFloat, strconv.parseFloatPrefix.
  destruct (strconv.special (bytes s)) as [[val n]|] eqn:Hsp.
  - destruct (n =? Z.of_nat (length (bytes s))) eqn:Hn; simpl; [|done].
    intros _. apply Z.eqb_eq in Hn. exact (special_consumes _ _ _ Hsp Hn).
  - destruct (strconv.readFloat (bytes s)) as [p|] eqn:Hrf;
      [|simpl; by rewrite andb_false_r].
    assert (strconv.p_n p = Z.of_nat (length (bytes s)) ->
            Forall (fun c => floatByte c = true) (bytes s)) as Hdone
      by (by apply readFloat_consumes).
    destruct (strconv.parsedValue p);
      destruct (strconv.p_n p =? Z.of_nat (length (bytes s))) eqn:Hn;
      simpl; try done; intros _; apply Hdone; by apply Z.eqb_eq.
Qed.

(** X16: a cost is never accepted unless each of its bytes is a digit, a
    sign, the point, the underscore or one of the letters a-f, i, n, p,
    t, x, y in either case.  A POST to /submit or /modify whose cost
    holds any other byte (a space, a comma, a currency sign) is answered
    400 and leaves the world untouched. *)
Theorem cost_outside_alphabet_rejected (r : Request) (w : World) :
  Method r = MethodPost ->
  ~ Forall (fun c => floatByte c = true) (bytes (FormValue r "cost")) ->
  handleSubmit r w = (httpError "Invalid cost" StatusBadRequest, w) /\
  StatusCode (handleModify r w).1 = StatusBadRequest /\
  (handleModify r w).2 = w.
Proof.
  intros Hm Hbad.
  pose proof (ParseFloat_alphabet (FormValue r "cost")) as Halpha.
  unfold handleSubmit, handleModify.
  destruct (strconv.ParseFloat (FormValue r "cost")) as [c|err];
    [by destruct (Hbad (Halpha c eq_refl))|].
  repeat case_decide; try done.
  by destruct (primitive.ObjectIDFromHex (FormValue r "id")).
Qed.

Lemma cost_outside_alphabet_rejected_witness :
  handleSubmit submitSpacedCost serverUp =
    (httpError "Invalid cost" StatusBadRequest, serverUp) /\
  StatusCode (handleModify submitSpacedCost serverUp).1 = StatusBadRequest /\
  (handleModify submitSpacedCost serverUp).2 = serverUp.
Proof.
  apply (cost_outside_alphabet_rejected submitSpacedCost serverUp).
  - reflexivity.
  - apply (bool_decide_unpack _). vm_compute. exact I.
Defined.

(** ** What the answers can say *)

(** X17: the answers of /submit, /delete and /modify are ten fixed
    texts: none of them carries a form value, a stored field or the
    text of a driver error. *)
Theorem mutation_answers_fixed (tpl : Template) (e : Endpoint) (r : Request)
    (w : World) :
  e ≠ Index -> (serve tpl e r w).1 ∈ mutationAnswers.
Proof.
  intros He. unfold mutationAnswers.
  destruct e; [done| | |]; simpl.
  - unfold handleSubmit. case_decide; [set_solver|].
    destruct (strconv.ParseFloat (FormValue r "cost")); [|set_solver]. run.
    destruct (NewObjectID w) as [id0 w1].
    destruct (mongo.InsertOne _ w1) as [[?|?] ?]; set_solver.
  - unfold handleDelete. case_decide; [set_solver|]. case_decide; [set_solver|].
    destruct (primitive.ObjectIDFromHex (FormValue r "id")); [|set_solver]. run.
    destruct (mongo.DeleteOne _ w) as [[res|?] ?]; [|set_solver].
    destruct (mongo.DeletedCount res =? 0); set_solver.
  - unfold handleModify. case_decide; [set_solver|]. case_decide; [set_solver|].
    destruct (primitive.ObjectIDFromHex (FormValue r "id")); [|set_solver].
    destruct (strconv.ParseFloat (FormValue r "cost")); [|set_solver]. run.
    destruct (mongo.UpdateOne _ _ _ _ w) as [[?|?] ?]; set_solver.
Qed.

Lemma mutation_answers_fixed_witness :
  (serve (index_html showCost) Submit submitPersuasion serverUp).1
    ∈ mutationAnswers.
Proof.
  apply (mutation_answers_fixed (index_html showCost) Submit submitPersuasion
           serverUp).
  discriminate.
Defined.

(** ** Requests on different records *)

Lemma setFirst_deleteFirst_comm (o1 o2 : ObjectID) (name author : string)
    (cost : float64) (l : list Book) :
  o1 ≠ o2 ->
  (mongo.deleteFirst o2 (mongo.setFirst o1 name author cost l).1).1 =
  (mongo.setFirst o1 name author cost (mongo.deleteFirst o2 l).1).1 /\
  (mongo.deleteFirst o2 (mongo.setFirst o1 name author cost l).1).2 =
  (mongo.deleteFirst o2 l).2 /\
  (mongo.setFirst o1 name author cost (mongo.deleteFirst o2 l).1).2 =
  (mongo.setFirst o1 name author cost l).2.
Proof.
  intros Hne. induction l as [|b l (IH1 & IH2 & IH3)]; simpl; [done|].
  destruct (decide (ID b = o1)) as [H1|H1];
    destruct (decide (ID b = o2)) as [H2|H2]; try congruence.
  - rewrite (bool_decide_eq_true_2 _ H1), (bool_decide_eq_false_2 _ H2). simpl.
    rewrite (bool_decide_eq_false_2 (ID b = o2)) by done.
    destruct (mongo.deleteFirst o2 l) as [l2 n2]. simpl.
    by rewrite (bool_decide_eq_true_2 _ H1).
  - rewrite (bool_decide_eq_false_2 _ H1), (bool_decide_eq_true_2 _ H2). simpl.
    destruct (mongo.setFirst o1 name author cost l) as [l1 n1]. simpl.
    by rewrite (bool_decide_eq_true_2 _ H2).
  - rewrite (bool_decide_eq_false_2 _ H1), (bool_decide_eq_false_2 _ H2).
    destruct (mongo.setFirst o1 name author cost l) as [l1 n1] eqn:Hs.
    destruct (mongo.deleteFirst o2 l) as [l2 n2] eqn:Hd. simpl in *.
    rewrite (bool_decide_eq_false_2 _ H1), (bool_decide_eq_false_2 _ H2).
    destruct (mongo.deleteFirst o2 l1) as [l12 n12].
    destruct (mongo.setFirst o1 name author cost l2) as [l21 n21].
    simpl in *. by subst.
Qed.

(** What /delete does when its answer is not 500. *)
Lemma handleDelete_done (r : Request) (w : World) (oid : ObjectID) :
  Method r = MethodPost ->
  primitive.ObjectIDFromHex (FormValue r "id") = Ok oid ->
  StatusCode (handleDelete r w).1 ≠ StatusInternalServerError ->
  (handleDelete r w).1 =
    (if (mongo.deleteFirst oid (books w)).2 =? 0
     then Fprintf notFoundFragment else Fprintf deletedFragment) /\
  books (handleDelete r w).2 = (mongo.deleteFirst oid (books w)).1.
Proof.
  intros Hm Hid. rewrite (handleDelete_valid r w oid Hm Hid).
  unfold mongo.DeleteOne. run.
  destruct (reachable w); run; [|intros Hno; by destruct Hno].
  by destruct (mongo.deleteFirst oid (books w)) as [l' n].
Qed.

(** What /modify does when its answer is not 500, the request being one
    that reaches the store. *)
Lemma handleModify_not_failed (r : Request) (w : World) (oid : ObjectID)
    (c : float64) :
  Method r = MethodPost ->
  primitive.ObjectIDFromHex (FormValue r "id") = Ok oid ->
  strconv.ParseFloat (FormValue r "cost") = Ok c ->
  StatusCode (handleModify r w).1 ≠ StatusInternalServerError ->
  (handleModify r w).1 = Fprintf modifiedFragment /\
  books (handleModify r w).2 =
    (mongo.setFirst oid (FormValue r "name") (FormValue r "author") c
                    (books w)).1.
Proof.
  intros Hm Hid Hc. rewrite (handleModify_valid r w oid c Hm Hid Hc).
  unfold mongo.UpdateOne. run.
  destruct (reachable w); run; [|intros Hno; by destruct Hno].
  by destruct (mongo.setFirst oid _ _ c (books w)) as [l' n].
Qed.

(** A /modify that is refused before the store answers the same in
    every world and leaves it alone. *)
Lemma handleModify_refused (r : Request) :
  Method r ≠ MethodPost \/
  is_ok (strconv.ParseFloat (FormValue r "cost")) = false ->
  exists resp : Response,
    StatusCode resp ≠ StatusInternalServerError /\
    forall w : World, handleModify r w = (resp, w).
Proof.
  intros Hrefused. unfold handleModify.
  destruct (decide (Method r ≠ MethodPost)) as [Hm|Hm];
    [by eexists; split; [|done]|].
  destruct Hrefused as [?|Hcost]; [done|].
  destruct (decide (FormValue r "id" = ""));
    [by eexists; split; [|done]|].
  destruct (primitive.ObjectIDFromHex (FormValue r "id"));
    [|by eexists; split; [|done]].
  destruct (strconv.ParseFloat (FormValue r "cost")); [done|].
  by eexists; split; [|done].
Qed.

(** X18: an update and a delete that name different ids do not
    interfere.  Take the two requests served in either order, each
    request in whatever state the environment is by then, the later one
    on the collection the earlier one left; when none of the four
    answers is a 500 (no driver call failed), each request is answered
    the same in both orders and both orders leave the same
    collection. *)
Theorem modify_delete_commute
    (rm rd : Request) (w w1 w2 w3 : World) (om od : ObjectID) :
  primitive.ObjectIDFromHex (FormValue rm "id") = Ok om ->
  primitive.ObjectIDFromHex (FormValue rd "id") = Ok od ->
  om ≠ od ->
  books w1 = books (handleModify rm w).2 ->
  books w2 = books w ->
  books w3 = books (handleDelete rd w2).2 ->
  StatusCode (handleModify rm w).1 ≠ StatusInternalServerError ->
  StatusCode (handleDelete rd w1).1 ≠ StatusInternalServerError ->
  StatusCode (handleDelete rd w2).1 ≠ StatusInternalServerError ->
  StatusCode (handleModify rm w3).1 ≠ StatusInternalServerError ->
  books (handleDelete rd w1).2 = books (handleModify rm w3).2 /\
  (handleModify rm w3).1 = (handleModify rm w).1 /\
  (handleDelete rd w1).1 = (handleDelete rd w2).1.
Proof.
  intros Hm Hd Hne Hc1 Hc2 Hc3 Hs0 Hs1 Hs2 Hs3.
  assert (books (handleDelete rd w1).2 =
            (if decide (Method rd = MethodPost)
             then (mongo.deleteFirst od (books w1)).1 else books w1) /\
          books (handleDelete rd w2).2 =
            (if decide (Method rd = MethodPost)
             then (mongo.deleteFirst od (books w2)).1 else books w2) /\
          ((mongo.deleteFirst od (books w1)).2 =
           (mongo.deleteFirst od (books w2)).2 ->
           (handleDelete rd w1).1 = (handleDelete rd w2).1))
    as (Hd1 & Hd2 & Hdans).
  { destruct (decide (Method rd = MethodPost)) as [Hpd|Hpd].
    - destruct (handleDelete_done rd w1 od Hpd Hd Hs1) as [Ha1 Hb1].
      destruct (handleDelete_done rd w2 od Hpd Hd Hs2) as [Ha2 Hb2].
      split_and!; try done. rewrite Ha1, Ha2. by intros ->.
    - unfold handleDelete. rewrite !decide_True by done. done. }
  destruct (decide (Method rm = MethodPost)) as [Hpm|Hpm];
    [destruct (strconv.ParseFloat (FormValue rm "cost")) as [c|err] eqn:Hc|].
  - destruct (handleModify_not_failed rm w om c Hpm Hm Hc Hs0) as [Ha0 Hb0].
    destruct (handleModify_not_failed rm w3 om c Hpm Hm Hc Hs3) as [Ha3 Hb3].
    destruct (setFirst_deleteFirst_comm om od (FormValue rm "name")
                (FormValue rm "author") c (books w) Hne) as (Hk1 & Hk2 & _).
    rewrite Ha0, Ha3, Hb3, Hc3, Hd1, Hd2, Hc1, Hb0, Hc2.
    split_and!; [|done|].
    + by destruct (decide (Method rd = MethodPost)).
    + apply Hdans. by rewrite Hc1, Hb0, Hc2.
  - destruct (handleModify_refused rm) as (resp & _ & Hall);
      [right; by rewrite Hc|].
    rewrite !Hall in *. simpl in *.
    rewrite Hc3, Hd1, Hd2, Hc1, Hc2. split_and!; try done.
    apply Hdans. congruence.
  - destruct (handleModify_refused rm) as (resp & _ & Hall); [by left|].
    rewrite !Hall in *. simpl in *.
    rewrite Hc3, Hd1, Hd2, Hc1, Hc2. split_and!; try done.
    apply Hdans. congruence.
Qed.

Lemma modify_delete_commute_witness :
  books (handleDelete deleteEmma (laterAfterModify modifyDune serverUp)).2 =
    books (handleModify modifyDune (laterAfterDelete deleteEmma serverUp)).2 /\
  (handleModify modifyDune (laterAfterDelete deleteEmma serverUp)).1 =
    (handleModify modifyDune serverUp).1 /\
  (handleDelete deleteEmma (laterAfterModify modifyDune serverUp)).1 =
    (handleDelete deleteEmma serverUp).1.
Proof.
  apply (modify_delete_commute modifyDune deleteEmma serverUp
           (laterAfterModify modifyDune serverUp) serverUp
           (laterAfterDelete deleteEmma serverUp) duneID emmaID).
  - vm_compute. reflexivity.
  - vm_compute. reflexivity.
  - vm_compute. discriminate.
  - reflexivity.
  - reflexivity.
  - reflexivity.
  - vm_compute. discriminate.
  - vm_compute. discriminate.
  - vm_compute. discriminate.
  - vm_compute. discriminate.
Defined.
